(** * migrate_to_pep621: Poetry [tool.poetry] to PEP 621 [project]

    A shallow embedding of [migrate_to_pep621.py] and the properties of its
    translation engine: the caret/tilde constraint translator, the
    dependency-specifier builder and the TOML serializer.

    Modelling conventions.
    - A Python [str] is a [string] whose characters are code points below
      256 (Latin-1); [str.strip], [str.lower] and [int] are modelled on that
      range.
    - A Python [int] is a [Z].
    - A [dict] is an association list in insertion order, as [dict]
      iteration order is observable in the output.
    - A raised exception is the [Raise] case of [result]; the [warnings]
      list that the source threads by reference is passed explicitly. *)

From Stdlib Require Import ZArith NArith List Bool Ascii String Lia.
From Stdlib Require Import Decimal DecimalString DecimalN DecimalPos.
From Stdlib Require Import Permutation Sorted.
Import ListNotations.

Open Scope list_scope.
Open Scope string_scope.

(* ================================================================== *)
(** ** Exceptions *)

Inductive exn : Type :=
| ValueError
| TypeError
| AttributeError
| IndexError
| EnvironmentError.

Inductive result (A : Type) : Type :=
| Ok (a : A)
| Raise (e : exn).

Arguments Ok {A} a.
Arguments Raise {A} e.

Definition bind {A B : Type} (m : result A) (k : A -> result B) : result B :=
  match m with
  | Ok a => k a
  | Raise e => Raise e
  end.

Notation "x <- m ;; k" := (bind m (fun x => k))
  (at level 61, m at next level, right associativity).
Notation "' pat <- m ;; k" := (bind m (fun x => let 'pat := x in k))
  (at level 61, pat pattern, m at next level, right associativity).

Fixpoint mapM {A B : Type} (f : A -> result B) (l : list A) : result (list B) :=
  match l with
  | [] => Ok []
  | x :: r => y <- f x ;; ys <- mapM f r ;; Ok (y :: ys)
  end.

(* ================================================================== *)
(** ** Python string primitives *)

Module Py.

(** [str.isspace] on one code point below 256: TAB..CR, FS..US, SPACE,
    NEL (0x85) and NBSP (0xA0). *)
Definition is_space (c : ascii) : bool :=
  let n := nat_of_ascii c in
  ((9 <=? n) && (n <=? 13) || (28 <=? n) && (n <=? 32)
   || (n =? 133) || (n =? 160))%nat.

Fixpoint lstrip (s : string) : string :=
  match s with
  | EmptyString => EmptyString
  | String c r => if is_space c then lstrip r else s
  end.

Fixpoint rstrip (s : string) : string :=
  match s with
  | EmptyString => EmptyString
  | String c r =>
      match rstrip r with
      | EmptyString => if is_space c then EmptyString else String c EmptyString
      | r' => String c r'
      end
  end.

(** [s.strip()] *)
Definition strip (s : string) : string := rstrip (lstrip s).

(** [s.startswith(p)] *)
Fixpoint startswith (p s : string) : bool :=
  match p with
  | EmptyString => true
  | String a p' =>
      match s with
      | EmptyString => false
      | String b s' => Ascii.eqb a b && startswith p' s'
      end
  end.

(** [s[1:]] *)
Definition tail (s : string) : string :=
  match s with
  | EmptyString => EmptyString
  | String _ r => r
  end.

(** [s.split(sep)] for a one-character separator: never the empty list. *)
Fixpoint split (sep : ascii) (s : string) : list string :=
  match s with
  | EmptyString => [EmptyString]
  | String c r =>
      if Ascii.eqb c sep then EmptyString :: split sep r
      else match split sep r with
           | [] => [String c EmptyString]
           | h :: t => String c h :: t
           end
  end.

(** [sep.join(l)] *)
Fixpoint join (sep : string) (l : list string) : string :=
  match l with
  | [] => EmptyString
  | [x] => x
  | x :: r => x ++ sep ++ join sep r
  end.

(** [s.lower()] on code points below 256: A-Z and the Latin-1 capitals
    0xC0..0xDE (0xD7, the multiplication sign, apart) move up by 32. *)
Definition lower_char (c : ascii) : ascii :=
  let n := nat_of_ascii c in
  if ((65 <=? n) && (n <=? 90)
      || (192 <=? n) && (n <=? 222) && negb (n =? 215))%nat
  then ascii_of_nat (n + 32) else c.

Fixpoint lower (s : string) : string :=
  match s with
  | EmptyString => EmptyString
  | String c r => String (lower_char c) (lower r)
  end.

(** [s.replace(old, new)] for a one-character [old]. *)
Fixpoint replace_char (old : ascii) (new : string) (s : string) : string :=
  match s with
  | EmptyString => EmptyString
  | String c r =>
      if Ascii.eqb c old then new ++ replace_char old new r
      else String c (replace_char old new r)
  end.

(** One decimal digit as the constructor of [Decimal.uint] it stands for. *)
Definition digit_of (c : ascii) : option (uint -> uint) :=
  match c with
  | "0"%char => Some D0 | "1"%char => Some D1 | "2"%char => Some D2
  | "3"%char => Some D3 | "4"%char => Some D4 | "5"%char => Some D5
  | "6"%char => Some D6 | "7"%char => Some D7 | "8"%char => Some D8
  | "9"%char => Some D9
  | _ => None
  end.

(** The digit part of an [int] literal: one or more digits, where single
    underscores may stand between two digits. *)
Fixpoint int_digits (s : string) : option uint :=
  match s with
  | EmptyString => None
  | String c r =>
      match digit_of c with
      | None => None
      | Some d =>
          match r with
          | EmptyString => Some (d Nil)
          | String "_"%char r' => option_map d (int_digits r')
          | _ => option_map d (int_digits r)
          end
      end
  end.

(** The whitespace that [int] skips around a literal: TAB..CR and SPACE,
    and the two blanks above 127 (NEL, NBSP), which it reads as a space.
    FS..US, which [str.strip] removes, are no part of it. *)
Definition is_int_space (c : ascii) : bool :=
  let n := nat_of_ascii c in
  ((9 <=? n) && (n <=? 13) || (n =? 32) || (n =? 133) || (n =? 160))%nat.

Fixpoint lstrip_by (sp : ascii -> bool) (s : string) : string :=
  match s with
  | EmptyString => EmptyString
  | String c r => if sp c then lstrip_by sp r else s
  end.

Fixpoint rstrip_by (sp : ascii -> bool) (s : string) : string :=
  match s with
  | EmptyString => EmptyString
  | String c r =>
      match rstrip_by sp r with
      | EmptyString => if sp c then EmptyString else String c EmptyString
      | r' => String c r'
      end
  end.

(** [int(s)]: surrounding whitespace, an optional sign, digits. *)
Definition int (s : string) : result Z :=
  let t := rstrip_by is_int_space (lstrip_by is_int_space s) in
  let '(neg, body) :=
    match t with
    | String "-"%char r => (true, r)
    | String "+"%char r => (false, r)
    | _ => (false, t)
    end in
  match int_digits body with
  | Some u =>
      let n := Z.of_N (N.of_uint u) in
      Ok (if neg then Z.opp n else n)
  | None => Raise ValueError
  end.

(** [str(n)] of a non-negative [int]. *)
Definition str_nat (n : N) : string :=
  NilEmpty.string_of_uint (N.to_uint n).

(** [str(z)] of an [int]. *)
Definition str_int (z : Z) : string :=
  match z with
  | Z0 => "0"
  | Zpos p => str_nat (Npos p)
  | Zneg p => "-" ++ str_nat (Npos p)
  end.

End Py.

(* ================================================================== *)
(** ** ConstraintTranslator *)

(** [while len(parts) < 3: parts.append(0)] *)
Definition pad3 (parts : list Z) : list Z :=
  parts ++ repeat 0%Z (3 - List.length parts).

Definition caret_to_range (ver : string) : result string :=
  if negb (Py.startswith "^" ver) then Ok ver
  else
    let base := Py.tail ver in
    parts <- mapM Py.int (Py.split "."%char base) ;;
    match firstn 3 (pad3 parts) with
    | [maj; minor; patch] =>
        let upper :=
          if (0 <? maj)%Z then Py.str_int (maj + 1) ++ ".0.0"
          else if (0 <? minor)%Z then "0." ++ Py.str_int (minor + 1) ++ ".0"
          else "0.0." ++ Py.str_int (patch + 1) in
        Ok (">=" ++ Py.str_int maj ++ "." ++ Py.str_int minor ++ "."
                 ++ Py.str_int patch ++ ",<" ++ upper)
    | _ => Raise ValueError
    end.

Definition tilde_to_range (ver : string) : result string :=
  if negb (Py.startswith "~" ver) then Ok ver
  else
    let base := Py.tail ver in
    match Py.split "."%char base with
    | [] => Raise IndexError
    | [p0] =>
        let lower := p0 ++ ".0" in
        n <- Py.int p0 ;;
        let upper := Py.str_int (n + 1) ++ ".0" in
        Ok (">=" ++ lower ++ ",<" ++ upper)
    | [p0; p1] =>
        major <- Py.int p0 ;;
        minor <- Py.int p1 ;;
        Ok (">=" ++ Py.str_int major ++ "." ++ Py.str_int minor ++ ",<"
                 ++ Py.str_int major ++ "." ++ Py.str_int (minor + 1))
    | p0 :: p1 :: p2 :: _ =>
        major <- Py.int p0 ;;
        minor <- Py.int p1 ;;
        patch <- Py.int p2 ;;
        Ok (">=" ++ Py.str_int major ++ "." ++ Py.str_int minor ++ "."
                 ++ Py.str_int patch ++ ",<"
                 ++ Py.str_int major ++ "." ++ Py.str_int (minor + 1) ++ ".0")
    end.

Definition normalize_version_constraint (ver : string) : result string :=
  let ver := Py.strip ver in
  if Py.startswith "^" ver then caret_to_range ver
  else if Py.startswith "~" ver then tilde_to_range ver
  else Ok ver.

(* ================================================================== *)
(** ** Parsed TOML values *)

(** What [tomllib] hands over.  Of a float only the truth value is
    observed ([truth] is false for [0.0]); a date, a time or a datetime is
    always true.  Their text goes through the [str] builtin; [tag] tells
    two of them apart. *)
#[warnings="-register-all"]
Inductive value : Type :=
| VStr (s : string)
| VInt (n : Z)
| VBool (b : bool)
| VFloat (truth : bool) (tag : string)
| VDate (tag : string)
| VList (l : list value)
| VDict (d : list (string * value)).

Definition dict : Type := list (string * value).

(** Python truth value *)
Definition truthy (v : value) : bool :=
  match v with
  | VStr s => negb (s =? "")
  | VInt n => negb (n =? 0)%Z
  | VBool b => b
  | VFloat t _ => t
  | VDate _ => true
  | VList l => match l with [] => false | _ => true end
  | VDict d => match d with [] => false | _ => true end
  end.

(** [d.get(k)], [None] when the key is absent *)
Fixpoint get (k : string) (d : dict) : option value :=
  match d with
  | [] => None
  | (k', v) :: r => if k' =? k then Some v else get k r
  end.

(** [d.get(k, default)] *)
Definition get_default (k : string) (d : dict) (default : value) : value :=
  match get k d with Some v => v | None => default end.

(** Truth value of [d.get(k)], where [None] is false *)
Definition truthy_opt (o : option value) : bool :=
  match o with Some v => truthy v | None => false end.

(** [a or b] on the results of two [dict.get] *)
Definition py_or (a b : option value) : option value :=
  if truthy_opt a then a else b.

(** [d.get(k) or default] *)
Definition or_default (a : option value) (default : value) : value :=
  match a with
  | Some v => if truthy v then v else default
  | None => default
  end.

Fixpoint chars (s : string) : list string :=
  match s with
  | EmptyString => []
  | String c r => String c EmptyString :: chars r
  end.

(** [for x in v]: a list yields its items, a string its characters, a
    dict its keys; nothing else is iterable. *)
Definition iterate (v : value) : result (list value) :=
  match v with
  | VList l => Ok l
  | VStr s => Ok (map VStr (chars s))
  | VDict d => Ok (map (fun kv => VStr (fst kv)) d)
  | _ => Raise TypeError
  end.

(** Special characters of the output, spelled by code point. *)
Definition nl : string := String (ascii_of_nat 10) EmptyString.
Definition dq : string := String (ascii_of_nat 34) EmptyString.
Definition bsl : string := String (ascii_of_nat 92) EmptyString.

(** What the program takes from [pathlib], [re] and the [str] builtin. *)
Record Env : Type := {
  (** [str(Path(p).expanduser())] *)
  path_expanduser : string -> result string;
  (** [path.is_absolute()] *)
  path_is_absolute : string -> bool;
  (** [str((Path.cwd() / path).resolve())] *)
  path_cwd_resolve : string -> result string;
  (** [pat.match(s)] of [parse_authors]: the groups [name] and [email] *)
  author_match : string -> option (string * option string);
  (** [str(v)] of a value that is not a string, an int or a bool *)
  builtin_str : value -> string
}.

(** A stable sort on the key [str.lower], as [sorted(out, key=str.lower)]:
    an element goes in front of the first one whose key is not smaller. *)
Fixpoint insert_by (key : string -> string) (x : string) (l : list string)
  : list string :=
  match l with
  | [] => [x]
  | y :: r =>
      if String.leb (key x) (key y) then x :: l
      else y :: insert_by key x r
  end.

Fixpoint sorted_by (key : string -> string) (l : list string) : list string :=
  match l with
  | [] => []
  | x :: r => insert_by key x (sorted_by key r)
  end.

Definition toml_escape (s : string) : string :=
  Py.replace_char (ascii_of_nat 34) (bsl ++ dq)
    (Py.replace_char (ascii_of_nat 92) (bsl ++ bsl) s).

(** [toml_escape(v)] on a value of any type: [str] has the [.replace]
    the code calls, a date or time has another one, which refuses the
    string arguments, and the other types have none. *)
Definition toml_escape_value (v : value) : result string :=
  match v with
  | VStr s => Ok (toml_escape s)
  | VDate _ => Raise TypeError
  | _ => Raise AttributeError
  end.

Fixpoint spaces (n : nat) : string :=
  match n with
  | O => EmptyString
  | S k => String " "%char (spaces k)
  end.

Definition dump_toml_array_str (arr : list string) (indent : Z) : string :=
  let pad := spaces (Z.to_nat indent) in
  let items :=
    Py.join ("," ++ nl) (map (fun x => pad ++ dq ++ toml_escape x ++ dq) arr) in
  "[" ++ nl ++ items ++ nl ++ spaces (Z.to_nat (Z.max (indent - 2) 0)) ++ "]".

Record author : Type := {
  author_name : string;
  author_email : option string
}.

Section Program.

Variable E : Env.

(** [f"{v}"] *)
Definition format (v : value) : string :=
  match v with
  | VStr s => s
  | VInt n => Py.str_int n
  | VBool true => "True"
  | VBool false => "False"
  | _ => builtin_str E v
  end.

Definition parse_author (v : value) : result author :=
  match v with
  | VStr s =>
      match author_match E s with
      | None => Ok {| author_name := s; author_email := None |}
      | Some (name, email) =>
          Ok {| author_name := Py.strip name;
                author_email :=
                  match email with
                  | Some e => if e =? "" then None else Some (Py.strip e)
                  | None => None
                  end |}
      end
  | _ => Raise TypeError
  end.

Definition parse_authors (poetry_authors : value) : result (list author) :=
  items <- (if truthy poetry_authors then iterate poetry_authors else Ok []) ;;
  mapM parse_author items.

(** [','.join(extras)]: every item has to be a string. *)
Definition join_extras (extras : value) : result string :=
  items <- iterate extras ;;
  strs <- mapM (fun v => match v with
                         | VStr s => Ok s
                         | _ => Raise TypeError
                         end) items ;;
  Ok (Py.join "," strs).

Definition editable_warning (name path : string) : string :=
  "[editable-warning] " ++ name
    ++ " uses develop=true (editable). PEP 621 cannot encode this. "
    ++ "Use `pip install -e " ++ path ++ "` inside the venv for live edits.".

Definition dep_table_to_pep508 (name : string) (val : value)
    (warnings : list string) : result (string * list string) :=
  match val with
  | VStr s =>
      constraint <- normalize_version_constraint s ;;
      Ok (name ++ (if constraint =? "" then "" else " " ++ constraint),
          warnings)
  | VDict d =>
      match get "path" d with
      | Some pv =>
          match pv with
          | VStr p =>
              path <- path_expanduser E p ;;
              let warnings :=
                if truthy_opt (get "develop" d)
                then (warnings ++ [editable_warning name path])%list
                else warnings in
              abs_path <- (if path_is_absolute E path then Ok path
                           else path_cwd_resolve E path) ;;
              Ok (name ++ " @ file://" ++ abs_path, warnings)
          | _ => Raise TypeError
          end
      | None =>
          match get "git" d with
          | Some url =>
              let ref :=
                py_or (py_or (get "rev" d) (get "tag" d)) (get "branch" d) in
              match ref with
              | Some r =>
                  if truthy r
                  then Ok (name ++ " @ git+" ++ format url ++ "@" ++ format r,
                           warnings)
                  else Ok (name ++ " @ git+" ++ format url, warnings)
              | None => Ok (name ++ " @ git+" ++ format url, warnings)
              end
          | None =>
              let version := get "version" d in
              let extras := or_default (get "extras" d) (VList []) in
              let markers := get "markers" d in
              head <- (if truthy extras
                       then e <- join_extras extras ;;
                            Ok (name ++ "[" ++ e ++ "]")
                       else Ok name) ;;
              vpart <- match version with
                       | Some (VStr v) =>
                           if truthy (VStr v)
                           then c <- normalize_version_constraint v ;; Ok [c]
                           else Ok []
                       | Some v =>
                           if truthy v then Raise AttributeError else Ok []
                       | None => Ok []
                       end ;;
              let mpart := match markers with
                           | Some m =>
                               if truthy m then ["; " ++ format m] else []
                           | None => []
                           end in
              Ok (Py.join " " ([head] ++ vpart ++ mpart)%list, warnings)
          end
      end
  | _ => Ok (format val, warnings)
  end.

(** The loop of [poetry_deps_to_pep621] over [deps.items()]. *)
Fixpoint deps_loop (items : dict) (out warnings : list string)
  : result (list string * list string) :=
  match items with
  | [] => Ok (out, warnings)
  | (name, val) :: r =>
      if Py.lower name =? "python" then deps_loop r out warnings
      else
        '(spec, warnings) <- dep_table_to_pep508 name val warnings ;;
        deps_loop r (out ++ [spec])%list warnings
  end.

Definition poetry_deps_to_pep621 (deps : value) (warnings : list string)
  : result (list string * list string) :=
  items <- (if truthy deps
            then match deps with
                 | VDict d => Ok d
                 | _ => Raise AttributeError
                 end
            else Ok []) ;;
  '(out, warnings) <- deps_loop items [] warnings ;;
  Ok (sorted_by Py.lower out, warnings).

(** The [proj] dict of [build_pep621_toml]: an optional key is [None]
    when the source leaves it out of [proj]. *)
Record project : Type := {
  proj_name : value;
  proj_version : value;
  proj_description : option value;
  proj_readme : option value;
  proj_authors : option (list author);
  proj_license : option value;
  proj_urls : option dict;
  proj_dependencies : option (list string);
  proj_optional_dependencies : option (list (string * list string));
  proj_scripts : option value
}.

(** [if poetry.get(k): proj[k] = poetry[k]] *)
Definition get_truthy (k : string) (d : dict) : option value :=
  match get k d with
  | Some v => if truthy v then Some v else None
  | None => None
  end.

(** [if l: proj[k] = l] *)
Definition if_nonempty {A : Type} (l : list A) : option (list A) :=
  match l with
  | [] => None
  | _ => Some l
  end.

Definition url_labels : list (string * string) :=
  [("homepage", "Homepage"); ("repository", "Repository");
   ("documentation", "Documentation")].

Fixpoint collect_urls (keys : list (string * string)) (poetry : dict) : dict :=
  match keys with
  | [] => []
  | (k, label) :: r =>
      match get_truthy k poetry with
      | Some v => (label, v) :: collect_urls r poetry
      | None => collect_urls r poetry
      end
  end.

Definition default_requires : value := VList [VStr "poetry-core>=1.9.0"].
Definition default_backend : value := VStr "poetry.core.masonry.api".
Definition default_build_system : value :=
  VDict [("requires", default_requires); ("build-backend", default_backend)].

(** Lines 125-148: the [proj] dict. *)
Definition build_project (poetry : dict) (warnings : list string)
  : result (project * list string) :=
  let name := get_default "name" poetry (VStr "unknown-package") in
  let version := get_default "version" poetry (VStr "0.1.0") in
  let description := get_truthy "description" poetry in
  let readme := get_truthy "readme" poetry in
  authors <- parse_authors (get_default "authors" poetry (VList [])) ;;
  let license := get_truthy "license" poetry in
  let urls := collect_urls url_labels poetry in
  '(dep_list, warnings) <-
     poetry_deps_to_pep621 (get_default "dependencies" poetry (VDict []))
       warnings ;;
  let groups :=
    match get_default "group" poetry (VDict []) with
    | VDict g => g
    | _ => []
    end in
  dev_deps_src <- match get_default "dev" groups (VDict []) with
                  | VDict dev_group =>
                      Ok (get_default "dependencies" dev_group (VDict []))
                  | _ => Raise AttributeError
                  end ;;
  '(dev_deps, warnings) <- poetry_deps_to_pep621 dev_deps_src warnings ;;
  let optional_deps :=
    match dev_deps with
    | [] => []
    | _ => [("dev", dev_deps)]
    end in
  let scripts := or_default (get "scripts" poetry) (VDict []) in
  Ok ({| proj_name := name;
         proj_version := version;
         proj_description := description;
         proj_readme := readme;
         proj_authors := if_nonempty authors;
         proj_license := license;
         proj_urls := if_nonempty urls;
         proj_dependencies := if_nonempty dep_list;
         proj_optional_dependencies := if_nonempty optional_deps;
         proj_scripts := if truthy scripts then Some scripts else None |},
      warnings).

(** [if key in proj: lines.append(f'{key} = "{toml_escape(proj[key])}"')] *)
Definition scalar_line (key : string) (v : option value)
  : result (list string) :=
  match v with
  | Some x => e <- toml_escape_value x ;; Ok [key ++ " = " ++ dq ++ e ++ dq]
  | None => Ok []
  end.

Definition author_line (a : author) : string :=
  match author_email a with
  | Some email =>
      "  { name = " ++ dq ++ toml_escape (author_name a) ++ dq
        ++ ", email = " ++ dq ++ toml_escape email ++ dq ++ " },"
  | None => "  { name = " ++ dq ++ toml_escape (author_name a) ++ dq ++ " },"
  end.

Definition authors_lines (authors : option (list author)) : list string :=
  match authors with
  | Some l => (["authors = ["] ++ map author_line l ++ ["]"])%list
  | None => []
  end.

Definition license_lines (license : option value) : result (list string) :=
  match license with
  | Some text =>
      e <- toml_escape_value text ;;
      Ok ["license = { text = " ++ dq ++ e ++ dq ++ " }"]
  | None => Ok []
  end.

(** [for k, v in d.items(): lines.append(f'{k} = "{toml_escape(v)}"')] *)
Definition table_lines (d : dict) : result (list string) :=
  mapM (fun kv => e <- toml_escape_value (snd kv) ;;
                  Ok (fst kv ++ " = " ++ dq ++ e ++ dq)) d.

Definition urls_lines (urls : option dict) : result (list string) :=
  match urls with
  | Some d => ls <- table_lines d ;; Ok ("[project.urls]" :: ls)
  | None => Ok []
  end.

Definition dependencies_lines (deps : option (list string)) : list string :=
  match deps with
  | Some arr => [""; "dependencies = " ++ dump_toml_array_str arr 2]
  | None => []
  end.

Definition group_line (ga : string * list string) : string :=
  fst ga ++ " = " ++ dump_toml_array_str (snd ga) 2.

Definition optional_dependencies_lines
    (opt : option (list (string * list string))) : list string :=
  match opt with
  | Some groups =>
      ""%string :: "[project.optional-dependencies]" :: map group_line groups
  | None => []
  end.

Definition scripts_lines (scripts : option value) : result (list string) :=
  match scripts with
  | Some (VDict d) =>
      ls <- table_lines d ;; Ok (""%string :: "[project.scripts]" :: ls)
  | Some _ => Raise AttributeError
  | None => Ok []
  end.

(** Lines 184-189; [bs] is a dict or the lookup fails. *)
Definition build_system_lines (bs : value) : result (list string) :=
  match bs with
  | VDict d =>
      items <- iterate (get_default "requires" d default_requires) ;;
      quoted <- mapM (fun x => e <- toml_escape_value x ;; Ok (dq ++ e ++ dq))
                     items ;;
      backend <- toml_escape_value (get_default "build-backend" d default_backend) ;;
      Ok ["";
          "[build-system]";
          "requires = [" ++ Py.join ", " quoted ++ "]";
          "build-backend = " ++ dq ++ backend ++ dq]
  | _ => Raise AttributeError
  end.

Definition note_line (w : string) : string := "# " ++ w.

Definition notes_lines (warnings : list string) : list string :=
  match warnings with
  | [] => []
  | _ => ""%string :: "# --- Migration notes ---" :: map note_line warnings
  end.

(** Lines 150-193: the list [lines]. *)
Definition output_lines (proj : project) (bs : value) (warnings : list string)
  : result (list string) :=
  l_name <- scalar_line "name" (Some (proj_name proj)) ;;
  l_version <- scalar_line "version" (Some (proj_version proj)) ;;
  l_description <- scalar_line "description" (proj_description proj) ;;
  l_readme <- scalar_line "readme" (proj_readme proj) ;;
  l_license <- license_lines (proj_license proj) ;;
  l_urls <- urls_lines (proj_urls proj) ;;
  l_scripts <- scripts_lines (proj_scripts proj) ;;
  l_build <- build_system_lines bs ;;
  Ok (["[project]"] ++ l_name ++ l_version ++ l_description ++ l_readme
      ++ authors_lines (proj_authors proj)
      ++ l_license ++ l_urls
      ++ dependencies_lines (proj_dependencies proj)
      ++ optional_dependencies_lines (proj_optional_dependencies proj)
      ++ l_scripts ++ l_build ++ notes_lines warnings)%list.

(** Line 194: [return "\n".join(lines) + "\n"] *)
Definition render (proj : project) (bs : value) (warnings : list string)
  : result string :=
  lines <- output_lines proj bs warnings ;;
  Ok (Py.join nl lines ++ nl).

Definition build_pep621_toml (poetry : dict) (build_system : value)
    (warnings : list string) : result (string * list string) :=
  '(proj, warnings) <- build_project poetry warnings ;;
  let bs := if truthy build_system then build_system
            else default_build_system in
  text <- render proj bs warnings ;;
  Ok (text, warnings).

(** [migrate_pyproject] between reading the file and writing the result:
    from the parsed document to the new text and the warnings. *)
Definition migrate_document (data : dict) : result (string * list string) :=
  match get_default "tool" data (VDict []) with
  | VDict tool =>
      let poetry := get_default "poetry" tool (VDict []) in
      if negb (truthy poetry) then Raise ValueError
      else
        let build_system := get_default "build-system" data (VDict []) in
        match poetry with
        | VDict p => build_pep621_toml p build_system []
        | _ => Raise AttributeError
        end
  | _ => Raise AttributeError
  end.

End Program.

(* ================================================================== *)
(** ** Vocabulary of the properties *)

Fixpoint all_chars (p : ascii -> bool) (s : string) : bool :=
  match s with
  | EmptyString => true
  | String c r => p c && all_chars p r
  end.

Definition is_digit (c : ascii) : bool :=
  match Py.digit_of c with Some _ => true | None => false end.

(** A non-empty run of decimal digits. *)
Definition is_digits (s : string) : bool :=
  match s with
  | EmptyString => false
  | _ => all_chars is_digit s
  end.

(** [a] is a version component: digits that [int] reads as [x]. *)
Definition component (a : string) (x : N) : Prop :=
  is_digits a = true /\ Py.int a = Ok (Z.of_N x).

(** [X.Y.Z] *)
Definition version3 (x y z : Z) : string :=
  Py.str_int x ++ "." ++ Py.str_int y ++ "." ++ Py.str_int z.

(** The caret ceiling in the words of the rule: the leftmost non-zero
    component goes up by one, everything to its right becomes zero. *)
Definition caret_upper (maj minor patch : Z) : string :=
  if (0 <? maj)%Z then version3 (maj + 1) 0 0
  else if (0 <? minor)%Z then version3 0 (minor + 1) 0
  else version3 0 0 (patch + 1).

Definition first_char (s : string) : option ascii :=
  match s with
  | EmptyString => None
  | String c _ => Some c
  end.

Fixpoint last_char (s : string) : option ascii :=
  match s with
  | EmptyString => None
  | String c EmptyString => Some c
  | String _ r => last_char r
  end.

Definition not_space (o : option ascii) : bool :=
  match o with
  | Some c => negb (Py.is_space c)
  | None => true
  end.

(** No whitespace at either end. *)
Definition trimmed (s : string) : bool :=
  not_space (first_char s) && not_space (last_char s).




(** [w] mentions [name]. *)
Definition mentions (name w : string) : Prop :=
  exists pre post, w = pre ++ name ++ post.

(** The ref of a version-control table as the code picks it: the first
    of [rev], [tag], [branch] whose value is true. *)
Definition first_truthy_ref (d : dict) : option value :=
  match get_truthy "rev" d with
  | Some v => Some v
  | None =>
      match get_truthy "tag" d with
      | Some v => Some v
      | None => get_truthy "branch" d
      end
  end.

(** The ref in the words of the rule: the first of [rev], [tag],
    [branch] that is present. *)
Definition first_present_ref (d : dict) : option value :=
  match get "rev" d with
  | Some v => Some v
  | None =>
      match get "tag" d with
      | Some v => Some v
      | None => get "branch" d
      end
  end.

(** [name @ git+<url>[@ref]] *)
Definition git_specifier (E : Env) (name : string) (url : value)
    (ref : option value) : string :=
  match ref with
  | Some r => name ++ " @ git+" ++ format E url ++ "@" ++ format E r
  | None => name ++ " @ git+" ++ format E url
  end.

(** [p] occurs in [s]. *)
Definition occurs (p s : string) : bool :=
  match String.index 0 p s with
  | Some _ => true
  | None => false
  end.

(** An environment for the worked examples: no home directory to expand,
    working directory [/work], no author line matches the pattern. *)
Definition example_env : Env := {|
  path_expanduser := fun p => Ok p;
  path_is_absolute := fun p => Py.startswith "/" p;
  path_cwd_resolve := fun p => Ok ("/work/" ++ p);
  author_match := fun _ => None;
  builtin_str := fun _ => "?"
|}.

(** The text of a list of lines, each closed by a newline. *)
Fixpoint unlines (l : list string) : string :=
  match l with
  | [] => EmptyString
  | x :: r => x ++ nl ++ unlines r
  end.

(** An array element as the serializer quotes it. *)
Definition quoted (x : string) : string := dq ++ toml_escape x ++ dq.

(** An array in the words of the rule: one element per line, indented,
    a comma after every element, the last one too. *)
Definition element_plain (x : string) : string := "  " ++ quoted x.

Definition element_with_comma (x : string) : string :=
  "  " ++ quoted x ++ ",".

Definition array_with_trailing_commas (arr : list string) : string :=
  Py.join nl (("["%string :: map element_with_comma arr) ++ ["]"%string])%list.


(** The two keys of a build-system table that reach the output, each
    with its own default. *)
Definition effective_build_system (d : dict) : value :=
  VDict [("requires", get_default "requires" d default_requires);
         ("build-backend", get_default "build-backend" d default_backend)].

Definition example_poetry : dict :=
  [("name", VStr "demo");
   ("version", VStr "1.0.0");
   ("authors", VList [VStr "Jane Doe"]);
   ("dependencies",
    VDict [("python", VStr "^3.11");
           ("requests", VStr "^2.31.0");
           ("localtool",
            VDict [("path", VStr "../localtool"); ("develop", VBool true)])]);
   ("group",
    VDict [("dev",
            VDict [("dependencies", VDict [("pytest", VStr "~7.4")])]);
           ("test",
            VDict [("dependencies", VDict [("tox", VStr ">=4")])])])].

(** A parsed document whose build-system table names [requires] and
    [backend-path], and no [build-backend]. *)
Definition example_build_system : dict :=
  [("requires", VList [VStr "setuptools"]);
   ("backend-path", VList [VStr "."])].

Definition example_document : dict :=
  [("tool", VDict [("poetry", VDict [("name", VStr "demo")])]);
   ("build-system", VDict example_build_system)].

(** [proj["name"] = v] and [proj["version"] = v] *)
Definition set_name (v : value) (proj : project) : project :=
  {| proj_name := v;
     proj_version := proj_version proj;
     proj_description := proj_description proj;
     proj_readme := proj_readme proj;
     proj_authors := proj_authors proj;
     proj_license := proj_license proj;
     proj_urls := proj_urls proj;
     proj_dependencies := proj_dependencies proj;
     proj_optional_dependencies := proj_optional_dependencies proj;
     proj_scripts := proj_scripts proj |}.

Definition set_version (v : value) (proj : project) : project :=
  {| proj_name := proj_name proj;
     proj_version := v;
     proj_description := proj_description proj;
     proj_readme := proj_readme proj;
     proj_authors := proj_authors proj;
     proj_license := proj_license proj;
     proj_urls := proj_urls proj;
     proj_dependencies := proj_dependencies proj;
     proj_optional_dependencies := proj_optional_dependencies proj;
     proj_scripts := proj_scripts proj |}.

(** [key = "text"], a scalar line of the output *)
Definition scalar (key text : string) : string :=
  key ++ " = " ++ dq ++ toml_escape text ++ dq.

(** The text and the warnings of the worked example. *)
Definition example_output : string * list string :=
  Eval vm_compute in
    match build_pep621_toml example_env example_poetry (VDict []) [] with
    | Ok r => r
    | Raise _ => (EmptyString, [])
    end.

(** The keys of the metadata table that the serializer reads. *)
Definition serializer_keys : list string :=
  ["name"; "version"; "description"; "readme"; "authors"; "license";
   "homepage"; "repository"; "documentation"; "dependencies"; "group";
   "scripts"].

(** The output for a table with none of these keys. *)
Definition bare_lines : list string :=
  ["[project]";
   scalar "name" "unknown-package";
   scalar "version" "0.1.0";
   "";
   "[build-system]";
   "requires = [" ++ quoted "poetry-core>=1.9.0" ++ "]";
   "build-backend = " ++ quoted "poetry.core.masonry.api"].

(** Reading the body of a TOML basic string back, for the two escapes
    the serializer writes: a backslash stands for the character after it. *)
Fixpoint toml_unescape (s : string) : string :=
  match s with
  | EmptyString => EmptyString
  | String c r =>
      if Ascii.eqb c (ascii_of_nat 92) then
        match r with
        | EmptyString => String c EmptyString
        | String c' r' => String c' (toml_unescape r')
        end
      else String c (toml_unescape r)
  end.

(** The body of a basic string that its closing quote cannot be taken
    for: every quote and every backslash comes after an escaping
    backslash. *)
Fixpoint well_escaped (s : string) : bool :=
  match s with
  | EmptyString => true
  | String c r =>
      if Ascii.eqb c (ascii_of_nat 92) then
        match r with
        | EmptyString => false
        | String _ r' => well_escaped r'
        end
      else if Ascii.eqb c (ascii_of_nat 34) then false
      else well_escaped r
  end.

(** Neither a backslash nor a quote. *)
Definition plain_char (c : ascii) : bool :=
  negb (Ascii.eqb c (ascii_of_nat 92)) && negb (Ascii.eqb c (ascii_of_nat 34)).

(** The reserved key of the interpreter, in any case. *)
Definition is_python (kv : string * value) : bool :=
  Py.lower (fst kv) =? "python".

(** The entries of a dependency table that stand for packages. *)
Definition packages (deps : dict) : dict :=
  filter (fun kv => negb (is_python kv)) deps.

(** What a caret or tilde translation returns starts with [>] and ends
    with a character that is no blank. *)
Definition range_text (r : string) : Prop :=
  first_char r = Some ">"%char /\ not_space (last_char r) = true.

(** The line that opens the dependencies array. *)
Definition dependencies_line (arr : list string) : string :=
  "dependencies = " ++ dump_toml_array_str arr 2.

(** A metadata table with a URL and a dependency, and its output. *)
Definition urls_poetry : dict :=
  [("name", VStr "demo");
   ("homepage", VStr "https://example.org");
   ("dependencies", VDict [("requests", VStr "^2.31.0")])].

Definition urls_output : string * list string :=
  Eval vm_compute in
    match build_pep621_toml example_env urls_poetry (VDict []) [] with
    | Ok r => r
    | Raise _ => (EmptyString, [])
    end.

(** A scripts table of strings, as the source holds it. *)
Definition scripts_table (entries : list (string * string)) : value :=
  VDict (map (fun kv => (fst kv, VStr (snd kv))) entries).

Definition script_line (kv : string * string) : string :=
  scalar (fst kv) (snd kv).

(** A metadata table with two scripts, and its output. *)
Definition scripts_poetry : dict :=
  [("name", VStr "demo");
   ("scripts",
    scripts_table [("serve", "demo.cli:serve"); ("check", "demo.cli:check")])].

Definition scripts_output : string * list string :=
  Eval vm_compute in
    match build_pep621_toml example_env scripts_poetry (VDict []) [] with
    | Ok r => r
    | Raise _ => (EmptyString, [])
    end.

(* ================================================================== *)
(** ** Files and the command line *)

(** What [migrate_pyproject] takes from [tomllib], [pathlib] and the
    operating system. *)
Record Host : Type := {
  (** [tomllib.loads(text)] *)
  loads : string -> result dict;
  (** [str(path.with_suffix(".toml.bak"))] *)
  backup_path : string -> string;
  (** the file a path names: two paths have the same image exactly when
      they name the same file ([os.path.samefile]), however they are
      spelled *)
  file_of : string -> string;
  (** whether the file at a path can be created or overwritten *)
  writable : string -> bool
}.

(** The files as the paths show them: [fs p] is the text read at [p]. *)
Definition store : Type := string -> option string.

(** [p.write_text(c)], or the copy of a file with content [c] to [p]:
    every path that names the file of [p] shows [c] afterwards. *)
Definition write (H : Host) (fs : store) (p c : string) : store :=
  fun q => if file_of H q =? file_of H p then Some c else fs q.

(** [migrate_pyproject]: the files after the call and what it returns or
    raises.  A file that cannot be read or written raises
    [EnvironmentError], and so does the copy when the backup path names
    the source file itself ([shutil.SameFileError]). *)
Definition migrate_pyproject (E : Env) (H : Host) (fs : store)
    (pyproject_path : string) (dry_run : bool) (out_path : option string)
  : store * result (string * list string) :=
  match fs pyproject_path with
  | None => (fs, Raise EnvironmentError)
  | Some text =>
      match (data <- loads H text ;; migrate_document E data) with
      | Raise e => (fs, Raise e)
      | Ok (new_text, warnings) =>
          if dry_run then (fs, Ok (new_text, warnings))
          else
            let backup := backup_path H pyproject_path in
            if (file_of H backup =? file_of H pyproject_path)
               || negb (writable H backup)
            then (fs, Raise EnvironmentError)
            else
              let fs1 := write H fs backup text in
              let target :=
                match out_path with
                | Some o => o
                | None => pyproject_path
                end in
              if negb (writable H target)
              then (fs1, Raise EnvironmentError)
              else (write H fs1 target new_text, Ok (new_text, warnings))
      end
  end.

Definition warning_line (w : string) : string := "- " ++ w.

(** [main]: the files after the run and what was written to the
    standard output and to the standard error. *)
Definition main (E : Env) (H : Host) (fs : store) (pyproject : string)
    (dry_run : bool) (out : option string)
  : store * result (string * string) :=
  let '(fs', r) := migrate_pyproject E H fs pyproject dry_run out in
  match r with
  | Raise e => (fs', Raise e)
  | Ok (text, warnings) =>
      let stdout := if dry_run then text else EmptyString in
      let stderr :=
        match warnings with
        | [] => EmptyString
        | _ => nl ++ unlines ("Warnings:"%string :: map warning_line warnings)
        end in
      (fs', Ok (stdout, stderr))
  end.

(** A host for the worked examples: one document is understood, every
    file has one spelling and can be written. *)
Definition example_host : Host := {|
  loads := fun text =>
             if text =? "[tool.poetry]" then
               Ok [("tool", VDict [("poetry", VDict [("name", VStr "demo")])])]
             else Raise ValueError;
  backup_path := fun p => p ++ ".bak";
  file_of := fun p => p;
  writable := fun _ => true
|}.

Definition example_store : store :=
  fun p => if p =? "pyproject.toml" then Some "[tool.poetry]"%string else None.



(** [out_path or pyproject_path] *)
Definition target_of (pyproject_path : string) (out_path : option string)
  : string :=
  match out_path with
  | Some o => o
  | None => pyproject_path
  end.

(** The header of the optional-dependencies table, and the line that
    opens the array of the [dev] group. *)
Definition optional_header : string := "[project.optional-dependencies]".


(** The build-system table the serializer writes from: the one given when
    it is true, the default one otherwise. *)
Definition build_system_used (build_system : value) : value :=
  if truthy build_system then build_system else default_build_system.

(** Without a newline character. *)
Definition single_line (s : string) : bool :=
  all_chars (fun c => negb (Ascii.eqb c (ascii_of_nat 10))) s.

(** The lines of a text, as [text.split("\n")] gives them. *)
Definition text_lines (text : string) : list string :=
  Py.split (ascii_of_nat 10) text.

(** The lines [L] stand one after the other among [lines]. *)
Definition consecutive (L lines : list string) : Prop :=
  exists pre post, lines = (pre ++ L ++ post)%list.

Definition author_single_line (a : author) : bool :=
  single_line (author_name a)
  && match author_email a with
     | Some email => single_line email
     | None => true
     end.

(** The authors array, a line per author. *)
Definition authors_array_lines (authors : list author) : list string :=
  ("authors = ["%string :: map author_line authors ++ ["]"%string])%list.

(** A dependency array under the key [key], a line per element: a comma
    after every element but the last. *)
Definition array_open (key : string) : string := key ++ " = [".

Definition array_lines (key : string) (init : list string) (last : string)
  : list string :=
  (array_open key
   :: map element_with_comma init ++ [element_plain last; "]"%string])%list.

(** The two entries of the build-system table. *)
Definition requires_line (reqs : list string) : string :=
  "requires = [" ++ Py.join ", " (map quoted reqs) ++ "]".

Definition backend_line (backend : string) : string :=
  "build-backend = " ++ quoted backend.

Definition build_system_table (reqs : list string) (backend : string)
  : list string :=
  [""%string; "[build-system]"%string; requires_line reqs;
   backend_line backend].

(* ================================================================== *)
(** ** Strings *)

Lemma append_nil_r (s : string) : s ++ "" = s.
Proof. induction s as [|c r IH]; simpl; [reflexivity | now rewrite IH]. Qed.

Lemma append_assoc (a b c : string) : (a ++ b) ++ c = a ++ b ++ c.
Proof. induction a as [|x a IH]; simpl; [reflexivity | now rewrite IH]. Qed.

Lemma all_chars_app (p : ascii -> bool) (a b : string) :
  all_chars p (a ++ b) = all_chars p a && all_chars p b.
Proof.
  induction a as [|c a IH]; simpl; [reflexivity|].
  now rewrite IH, andb_assoc.
Qed.

Lemma all_chars_impl (p q : ascii -> bool) (s : string) :
  (forall c, p c = true -> q c = true) ->
  all_chars p s = true -> all_chars q s = true.
Proof.
  intros Hpq. induction s as [|c r IH]; simpl; [reflexivity|].
  intros H. apply andb_true_iff in H as [Hc Hr].
  now rewrite (Hpq _ Hc), (IH Hr).
Qed.

Lemma is_digits_all (s : string) :
  is_digits s = true -> all_chars is_digit s = true.
Proof. destruct s; [discriminate | exact (fun H => H)]. Qed.

Lemma digit_not_space (c : ascii) :
  is_digit c = true -> negb (Py.is_space c) = true.
Proof.
  destruct c as [[] [] [] [] [] [] [] []]; intros H;
    try discriminate H; reflexivity.
Qed.

Lemma digit_not_dot (c : ascii) :
  is_digit c = true -> negb (Ascii.eqb c ".") = true.
Proof.
  destruct c as [[] [] [] [] [] [] [] []]; intros H;
    try discriminate H; reflexivity.
Qed.

(** *** [strip] *)

Lemma lstrip_first (s : string) :
  not_space (first_char s) = true -> Py.lstrip s = s.
Proof.
  destruct s as [|c r]; simpl; [reflexivity|].
  intros H. apply negb_true_iff in H. now rewrite H.
Qed.

Lemma rstrip_last (s : string) :
  not_space (last_char s) = true -> Py.rstrip s = s.
Proof.
  induction s as [|c r IH]; [reflexivity|].
  destruct r as [|c' r'].
  - simpl. intros H. apply negb_true_iff in H. now rewrite H.
  - intros H. change (last_char (String c (String c' r')))
      with (last_char (String c' r')) in H.
    specialize (IH H).
    change (Py.rstrip (String c (String c' r')))
      with (match Py.rstrip (String c' r') with
            | EmptyString =>
                if Py.is_space c then EmptyString else String c EmptyString
            | r0 => String c r0
            end).
    now rewrite IH.
Qed.

Lemma strip_trimmed (s : string) : trimmed s = true -> Py.strip s = s.
Proof.
  unfold trimmed, Py.strip. intros H.
  apply andb_true_iff in H as [Hf Hl].
  rewrite (lstrip_first _ Hf). now apply rstrip_last.
Qed.

Lemma last_char_app (a b : string) :
  b <> "" -> last_char (a ++ b) = last_char b.
Proof.
  intros Hb. induction a as [|c a IH]; [reflexivity|].
  simpl. rewrite IH.
  destruct (a ++ b) eqn:Hab; [|reflexivity].
  destruct a; simpl in Hab; [contradiction | discriminate].
Qed.

Lemma last_char_cons (c : ascii) (s : string) :
  s <> "" -> last_char (String c s) = last_char s.
Proof. destruct s; [contradiction | reflexivity]. Qed.

Lemma app_nonempty (a b : string) : b <> "" -> a ++ b <> "".
Proof. destruct a; [trivial | discriminate]. Qed.

Lemma last_char_digits (s : string) :
  is_digits s = true -> not_space (last_char s) = true.
Proof.
  intros H. pose proof (is_digits_all _ H) as Hall. clear H.
  induction s as [|c r IH]; [reflexivity|].
  simpl in Hall. apply andb_true_iff in Hall as [Hc Hr].
  destruct r as [|c' r'].
  - simpl. now apply digit_not_space.
  - exact (IH Hr).
Qed.

(** *** [split] *)

Lemma split_no_sep (s : string) :
  all_chars (fun c => negb (Ascii.eqb c ".")) s = true ->
  Py.split "." s = [s].
Proof.
  induction s as [|c r IH]; [reflexivity|].
  simpl. intros H. apply andb_true_iff in H as [Hc Hr].
  apply negb_true_iff in Hc. rewrite Hc, (IH Hr). reflexivity.
Qed.

Lemma split_app (a r : string) :
  all_chars (fun c => negb (Ascii.eqb c ".")) a = true ->
  Py.split "." (a ++ String "." r) = a :: Py.split "." r.
Proof.
  induction a as [|c a IH]; [reflexivity|].
  simpl. intros H. apply andb_true_iff in H as [Hc Ha].
  apply negb_true_iff in Hc. rewrite Hc, (IH Ha). reflexivity.
Qed.

Lemma digits_no_dot (s : string) :
  is_digits s = true ->
  all_chars (fun c => negb (Ascii.eqb c ".")) s = true.
Proof.
  intros H. apply all_chars_impl with (p := is_digit).
  - exact digit_not_dot.
  - now apply is_digits_all.
Qed.

(** *** [int] and [str] *)

Lemma int_digits_cons (c : ascii) (d : uint -> uint) (r : string) :
  Py.digit_of c = Some d -> is_digits r = true ->
  Py.int_digits (String c r) = option_map d (Py.int_digits r).
Proof.
  intros Hc Hr. destruct r as [|c' r']; [discriminate Hr|].
  simpl in Hr. apply andb_true_iff in Hr as [Hc' _].
  cbn [Py.int_digits]. rewrite Hc.
  destruct c' as [[] [] [] [] [] [] [] []];
    try discriminate Hc'; reflexivity.
Qed.

Lemma int_digits_total (s : string) :
  is_digits s = true -> exists u, Py.int_digits s = Some u.
Proof.
  induction s as [|c r IH]; [discriminate|].
  intros H. simpl in H. apply andb_true_iff in H as [Hc Hr].
  unfold is_digit in Hc.
  destruct (Py.digit_of c) as [d|] eqn:Hd; [|discriminate].
  destruct r as [|c' r'].
  - exists (d Nil). cbn [Py.int_digits]. now rewrite Hd.
  - destruct (IH Hr) as [u Hu]. exists (d u).
    rewrite (int_digits_cons c d (String c' r') Hd Hr), Hu. reflexivity.
Qed.

Lemma first_char_digits (s : string) :
  is_digits s = true -> not_space (first_char s) = true.
Proof.
  destruct s as [|c r]; [discriminate|].
  simpl. intros H. apply andb_true_iff in H as [Hc _].
  now apply digit_not_space.
Qed.

Lemma digit_not_int_space (c : ascii) :
  is_digit c = true -> negb (Py.is_int_space c) = true.
Proof.
  destruct c as [[] [] [] [] [] [] [] []]; intros H;
    try discriminate H; reflexivity.
Qed.

Lemma strip_by_none (sp : ascii -> bool) (s : string) :
  all_chars (fun c => negb (sp c)) s = true ->
  Py.rstrip_by sp (Py.lstrip_by sp s) = s.
Proof.
  intros H.
  assert (L : Py.lstrip_by sp s = s).
  { destruct s as [|c r]; [reflexivity|].
    cbn [all_chars] in H. apply andb_true_iff in H as [Hc _].
    apply negb_true_iff in Hc. cbn [Py.lstrip_by]. now rewrite Hc. }
  rewrite L. clear L.
  induction s as [|c r IH]; [reflexivity|].
  cbn [all_chars] in H. apply andb_true_iff in H as [Hc Hr].
  apply negb_true_iff in Hc. cbn [Py.rstrip_by].
  rewrite (IH Hr), Hc. now destruct r.
Qed.

Lemma int_of_digits (s : string) :
  is_digits s = true ->
  exists u, Py.int_digits s = Some u /\ Py.int s = Ok (Z.of_N (N.of_uint u)).
Proof.
  intros H. destruct (int_digits_total s H) as [u Hu].
  exists u. split; [exact Hu|].
  unfold Py.int. rewrite strip_by_none.
  - destruct s as [|c r]; [discriminate H|].
    simpl in H. apply andb_true_iff in H as [Hc _].
    destruct c as [[] [] [] [] [] [] [] []]; try discriminate Hc;
      rewrite Hu; reflexivity.
  - apply all_chars_impl with (p := is_digit).
    + exact digit_not_int_space.
    + now apply is_digits_all.
Qed.

(** Every run of digits is a component. *)
Lemma component_total (s : string) :
  is_digits s = true -> exists x, component s x.
Proof.
  intros H. destruct (int_of_digits s H) as [u [_ Hu]].
  exists (N.of_uint u). now split.
Qed.

Lemma string_of_uint_digits (u : uint) :
  all_chars is_digit (NilEmpty.string_of_uint u) = true.
Proof. induction u; simpl; auto. Qed.

Lemma string_of_uint_is_digits (u : uint) :
  u <> Nil -> is_digits (NilEmpty.string_of_uint u) = true.
Proof.
  intros Hu. pose proof (string_of_uint_digits u) as H.
  destruct u; [contradiction| ..]; exact H.
Qed.

Lemma int_digits_string_of_uint (u : uint) :
  u <> Nil -> Py.int_digits (NilEmpty.string_of_uint u) = Some u.
Proof.
  induction u as [|u IH|u IH|u IH|u IH|u IH|u IH|u IH|u IH|u IH|u IH];
    intros Hn; [contradiction| ..];
    (destruct (uint_eq_dec u Nil) as [->|Hu];
     [ reflexivity
     | cbn [NilEmpty.string_of_uint];
       erewrite int_digits_cons;
       [ rewrite (IH Hu); reflexivity
       | reflexivity
       | now apply string_of_uint_is_digits ] ]).
Qed.

Lemma to_uint_nonnil (n : N) : N.to_uint n <> Nil.
Proof.
  destruct n as [|p]; [discriminate|].
  exact (Unsigned.to_uint_nonnil p).
Qed.

(** [int(str(n)) == n]: the decimal numeral of [n] is a component. *)
Lemma component_str_nat (n : N) : component (Py.str_nat n) n.
Proof.
  unfold component, Py.str_nat.
  pose proof (to_uint_nonnil n) as Hn.
  split; [now apply string_of_uint_is_digits|].
  destruct (int_of_digits _ (string_of_uint_is_digits _ Hn)) as [u [Hu Hi]].
  rewrite (int_digits_string_of_uint _ Hn) in Hu. injection Hu as <-.
  rewrite Hi. now rewrite DecimalN.Unsigned.of_to.
Qed.

Lemma str_int_of_N (n : N) : Py.str_int (Z.of_N n) = Py.str_nat n.
Proof. destruct n; reflexivity. Qed.

(* ================================================================== *)
(** ** ConstraintTranslator: caret, tilde, passthrough *)

Lemma trimmed_sigil (c : ascii) (pre d : string) :
  Py.is_space c = false -> is_digits d = true ->
  trimmed (String c (pre ++ d)) = true.
Proof.
  intros Hc Hd. unfold trimmed. cbn [first_char not_space].
  rewrite Hc. cbn [negb andb].
  change (String c (pre ++ d)) with (String c pre ++ d).
  rewrite last_char_app.
  - now apply last_char_digits.
  - intros ->. discriminate Hd.
Qed.

Lemma normalize_caret (r : string) :
  trimmed (String "^" r) = true ->
  normalize_version_constraint (String "^" r) = caret_to_range (String "^" r).
Proof.
  intros H. unfold normalize_version_constraint.
  rewrite (strip_trimmed _ H). reflexivity.
Qed.

Lemma normalize_tilde (r : string) :
  trimmed (String "~" r) = true ->
  normalize_version_constraint (String "~" r) = tilde_to_range (String "~" r).
Proof.
  intros H. unfold normalize_version_constraint.
  rewrite (strip_trimmed _ H). reflexivity.
Qed.

Lemma caret_parts (r : string) (parts : list Z) (maj minor patch : Z) :
  mapM Py.int (Py.split "." r) = Ok parts ->
  firstn 3 (pad3 parts) = [maj; minor; patch] ->
  caret_to_range (String "^" r)
  = Ok (">=" ++ version3 maj minor patch ++ ",<"
             ++ caret_upper maj minor patch).
Proof.
  intros Hp Hf. unfold caret_to_range.
  cbn [Py.startswith Py.tail]. rewrite Ascii.eqb_refl.
  cbn [andb negb]. rewrite Hp. cbn [bind]. rewrite Hf.
  unfold caret_upper, version3.
  destruct (0 <? maj)%Z; [|destruct (0 <? minor)%Z];
    cbn [Py.str_int]; rewrite ?append_assoc; reflexivity.
Qed.

Ltac split_components :=
  repeat match goal with
         | H : component _ _ |- _ => destruct H as [? ?]
         end.

Ltac solve_split :=
  repeat first
    [ rewrite split_app by (now apply digits_no_dot)
    | rewrite split_no_sep by (now apply digits_no_dot) ].

Ltac read_components :=
  cbn [mapM bind];
  repeat match goal with H : Py.int _ = _ |- _ => rewrite H; cbn [bind] end.

Lemma caret_components (a b c : string) (x y z : N) :
  component a x -> component b y -> component c z ->
  normalize_version_constraint ("^" ++ a ++ "." ++ b ++ "." ++ c)
  = Ok (">=" ++ version3 (Z.of_N x) (Z.of_N y) (Z.of_N z) ++ ",<"
             ++ caret_upper (Z.of_N x) (Z.of_N y) (Z.of_N z))
  /\ normalize_version_constraint ("^" ++ a ++ "." ++ b)
     = Ok (">=" ++ version3 (Z.of_N x) (Z.of_N y) 0 ++ ",<"
                ++ caret_upper (Z.of_N x) (Z.of_N y) 0)
  /\ normalize_version_constraint ("^" ++ a)
     = Ok (">=" ++ version3 (Z.of_N x) 0 0 ++ ",<"
                ++ caret_upper (Z.of_N x) 0 0).
Proof.
  intros Ha Hb Hc. split_components.
  repeat split.
  - change ("^" ++ a ++ "." ++ b ++ "." ++ c)
      with (String "^" (a ++ String "." (b ++ String "." c))).
    rewrite normalize_caret.
    + apply caret_parts
        with (parts := [Z.of_N x; Z.of_N y; Z.of_N z]); [|reflexivity].
      solve_split. now read_components.
    + replace (a ++ String "." (b ++ String "." c))
        with ((a ++ "." ++ b ++ ".") ++ c)
        by (now rewrite !append_assoc).
      now apply trimmed_sigil.
  - change ("^" ++ a ++ "." ++ b) with (String "^" (a ++ String "." b)).
    rewrite normalize_caret.
    + apply caret_parts with (parts := [Z.of_N x; Z.of_N y]); [|reflexivity].
      solve_split. now read_components.
    + replace (a ++ String "." b) with ((a ++ ".") ++ b)
        by (now rewrite !append_assoc).
      now apply trimmed_sigil.
  - change ("^" ++ a) with (String "^" ("" ++ a)).
    rewrite normalize_caret.
    + apply caret_parts with (parts := [Z.of_N x]); [|reflexivity].
      cbn [append]. solve_split. now read_components.
    + now apply trimmed_sigil.
Qed.

(** C1. A caret constraint of one, two or three integer components
    becomes [>=F,<C]: the floor [F] is the version padded with zeros to
    three components, the ceiling [C] raises the leftmost non-zero
    component by one and zeroes what follows it (major if major > 0, else
    minor if minor > 0, else patch). *)
Theorem caret_rule (a b c : string) (x y z : N) :
  component a x -> component b y -> component c z ->
  (normalize_version_constraint ("^" ++ a ++ "." ++ b ++ "." ++ c)
   = Ok (">=" ++ version3 (Z.of_N x) (Z.of_N y) (Z.of_N z) ++ ",<"
              ++ caret_upper (Z.of_N x) (Z.of_N y) (Z.of_N z))
   /\ normalize_version_constraint ("^" ++ a ++ "." ++ b)
      = Ok (">=" ++ version3 (Z.of_N x) (Z.of_N y) 0 ++ ",<"
                 ++ caret_upper (Z.of_N x) (Z.of_N y) 0)
   /\ normalize_version_constraint ("^" ++ a)
      = Ok (">=" ++ version3 (Z.of_N x) 0 0 ++ ",<"
                 ++ caret_upper (Z.of_N x) 0 0))
  /\ normalize_version_constraint "^1.2.3" = Ok ">=1.2.3,<2.0.0"
  /\ normalize_version_constraint "^0.2.3" = Ok ">=0.2.3,<0.3.0"
  /\ normalize_version_constraint "^0.0.3" = Ok ">=0.0.3,<0.0.4".
Proof.
  intros Ha Hb Hc. split; [now apply caret_components|].
  repeat split; reflexivity.
Qed.

Lemma caret_rule_witness :
  normalize_version_constraint ("^" ++ "01" ++ "." ++ "2" ++ "." ++ "3")
  = Ok (">=" ++ version3 1 2 3 ++ ",<" ++ caret_upper 1 2 3).
Proof.
  refine (proj1 (proj1 (caret_rule "01" "2" "3" 1 2 3 _ _ _)));
    split; reflexivity.
Defined.

(** On decimal numerals the floor is the input version itself. *)
Lemma caret_numerals (x y z : N) :
  normalize_version_constraint
    ("^" ++ Py.str_nat x ++ "." ++ Py.str_nat y ++ "." ++ Py.str_nat z)
  = Ok (">=" ++ Py.str_nat x ++ "." ++ Py.str_nat y ++ "." ++ Py.str_nat z
             ++ ",<" ++ caret_upper (Z.of_N x) (Z.of_N y) (Z.of_N z)).
Proof.
  destruct (caret_components _ _ _ x y z (component_str_nat x)
              (component_str_nat y) (component_str_nat z)) as [H _].
  rewrite H. unfold version3. rewrite !str_int_of_N, ?append_assoc.
  reflexivity.
Qed.

Lemma tilde_parts1 (p0 : string) (n : Z) :
  Py.split "." p0 = [p0] -> Py.int p0 = Ok n ->
  tilde_to_range (String "~" p0)
  = Ok (">=" ++ p0 ++ ".0" ++ ",<" ++ Py.str_int (n + 1) ++ ".0").
Proof.
  intros Hs Hi. unfold tilde_to_range.
  cbn [Py.startswith Py.tail]. rewrite Ascii.eqb_refl. cbn [andb negb].
  rewrite Hs, Hi. cbn [bind]. now rewrite ?append_assoc.
Qed.

Lemma tilde_components (a b c : string) (x y z : N) :
  component a x -> component b y -> component c z ->
  normalize_version_constraint ("~" ++ a)
  = Ok (">=" ++ a ++ ".0" ++ ",<" ++ Py.str_int (Z.of_N x + 1) ++ ".0")
  /\ normalize_version_constraint ("~" ++ a ++ "." ++ b)
     = Ok (">=" ++ Py.str_int (Z.of_N x) ++ "." ++ Py.str_int (Z.of_N y)
                ++ ",<" ++ Py.str_int (Z.of_N x) ++ "."
                ++ Py.str_int (Z.of_N y + 1))
  /\ normalize_version_constraint ("~" ++ a ++ "." ++ b ++ "." ++ c)
     = Ok (">=" ++ version3 (Z.of_N x) (Z.of_N y) (Z.of_N z)
                ++ ",<" ++ version3 (Z.of_N x) (Z.of_N y + 1) 0).
Proof.
  intros Ha Hb Hc. split_components.
  repeat split.
  - change ("~" ++ a) with (String "~" ("" ++ a)).
    rewrite normalize_tilde by (now apply trimmed_sigil).
    cbn [append]. apply tilde_parts1; [|assumption].
    now apply split_no_sep, digits_no_dot.
  - change ("~" ++ a ++ "." ++ b) with (String "~" (a ++ String "." b)).
    rewrite normalize_tilde.
    + unfold tilde_to_range.
      cbn [Py.startswith Py.tail]. rewrite Ascii.eqb_refl. cbn [andb negb].
      solve_split. read_components. now rewrite ?append_assoc.
    + replace (a ++ String "." b) with ((a ++ ".") ++ b)
        by (now rewrite !append_assoc).
      now apply trimmed_sigil.
  - change ("~" ++ a ++ "." ++ b ++ "." ++ c)
      with (String "~" (a ++ String "." (b ++ String "." c))).
    rewrite normalize_tilde.
    + unfold tilde_to_range.
      cbn [Py.startswith Py.tail]. rewrite Ascii.eqb_refl. cbn [andb negb].
      solve_split. read_components. unfold version3.
      now rewrite ?append_assoc.
    + replace (a ++ String "." (b ++ String "." c))
        with ((a ++ "." ++ b ++ ".") ++ c)
        by (now rewrite !append_assoc).
      now apply trimmed_sigil.
Qed.

(** C2. A tilde constraint becomes [>=floor,<ceiling]: one component [X]
    gives [X.0] and [(X+1).0]; two components give [X.Y] and [X.(Y+1)];
    three give [X.Y.Z] and [X.(Y+1).0]. *)
Theorem tilde_rule (a b c : string) (x y z : N) :
  component a x -> component b y -> component c z ->
  (normalize_version_constraint ("~" ++ a)
   = Ok (">=" ++ a ++ ".0" ++ ",<" ++ Py.str_int (Z.of_N x + 1) ++ ".0")
   /\ normalize_version_constraint ("~" ++ a ++ "." ++ b)
      = Ok (">=" ++ Py.str_int (Z.of_N x) ++ "." ++ Py.str_int (Z.of_N y)
                 ++ ",<" ++ Py.str_int (Z.of_N x) ++ "."
                 ++ Py.str_int (Z.of_N y + 1))
   /\ normalize_version_constraint ("~" ++ a ++ "." ++ b ++ "." ++ c)
      = Ok (">=" ++ version3 (Z.of_N x) (Z.of_N y) (Z.of_N z)
                 ++ ",<" ++ version3 (Z.of_N x) (Z.of_N y + 1) 0))
  /\ normalize_version_constraint "~1" = Ok ">=1.0,<2.0"
  /\ normalize_version_constraint "~1.2" = Ok ">=1.2,<1.3"
  /\ normalize_version_constraint "~1.2.3" = Ok ">=1.2.3,<1.3.0".
Proof.
  intros Ha Hb Hc. split; [now apply tilde_components|].
  repeat split; reflexivity.
Qed.

Lemma tilde_rule_witness :
  normalize_version_constraint ("~" ++ "7" ++ "." ++ "4")
  = Ok (">=" ++ Py.str_int 7 ++ "." ++ Py.str_int 4
             ++ ",<" ++ Py.str_int 7 ++ "." ++ Py.str_int (4 + 1)).
Proof.
  refine (proj1 (proj2 (proj1 (tilde_rule "7" "4" "0" 7 4 0 _ _ _))));
    split; reflexivity.
Defined.

(** On decimal numerals floor and ceiling read as in the rule. *)
Lemma tilde_numerals (x y z : N) :
  normalize_version_constraint ("~" ++ Py.str_nat x)
  = Ok (">=" ++ Py.str_nat x ++ ".0" ++ ",<" ++ Py.str_nat (x + 1) ++ ".0")
  /\ normalize_version_constraint ("~" ++ Py.str_nat x ++ "." ++ Py.str_nat y)
     = Ok (">=" ++ Py.str_nat x ++ "." ++ Py.str_nat y
                ++ ",<" ++ Py.str_nat x ++ "." ++ Py.str_nat (y + 1))
  /\ normalize_version_constraint
       ("~" ++ Py.str_nat x ++ "." ++ Py.str_nat y ++ "." ++ Py.str_nat z)
     = Ok (">=" ++ Py.str_nat x ++ "." ++ Py.str_nat y ++ "." ++ Py.str_nat z
                ++ ",<" ++ Py.str_nat x ++ "." ++ Py.str_nat (y + 1) ++ ".0").
Proof.
  destruct (tilde_components _ _ _ x y z (component_str_nat x)
              (component_str_nat y) (component_str_nat z)) as [H1 [H2 H3]].
  rewrite H1, H2, H3. unfold version3.
  replace (Z.of_N x + 1)%Z with (Z.of_N (x + 1)) by lia.
  replace (Z.of_N y + 1)%Z with (Z.of_N (y + 1)) by lia.
  rewrite !str_int_of_N, ?append_assoc. repeat split; reflexivity.
Qed.

(** C3, as the code has it: the constraint is stripped of surrounding
    whitespace first; when what is left starts with neither [^] nor [~] it
    is returned as it is, so a string without surrounding whitespace comes
    back unchanged. *)
Theorem passthrough_stripped (s : string) :
  Py.startswith "^" (Py.strip s) = false ->
  Py.startswith "~" (Py.strip s) = false ->
  normalize_version_constraint s = Ok (Py.strip s)
  /\ (trimmed s = true -> normalize_version_constraint s = Ok s).
Proof.
  intros Hc Ht. unfold normalize_version_constraint.
  rewrite Hc, Ht. split; [reflexivity|].
  intros H. now rewrite (strip_trimmed _ H).
Qed.

Lemma passthrough_stripped_witness :
  normalize_version_constraint "==2.0" = Ok "==2.0".
Proof.
  refine (proj2 (passthrough_stripped "==2.0" _ _) _); reflexivity.
Defined.

(** C3 as stated fails: a string that starts with a blank does not start
    with [^] or [~], and it is not returned unchanged. *)
Lemma passthrough_counterexample :
  Py.startswith "^" " ==2.0" = false
  /\ Py.startswith "~" " ==2.0" = false
  /\ normalize_version_constraint " ==2.0" = Ok "==2.0"
  /\ normalize_version_constraint " ==2.0" <> Ok " ==2.0".
Proof. repeat split; try reflexivity. discriminate. Qed.

(* ================================================================== *)
(** ** SpecifierBuilder *)

Lemma get_truthy_some (k : string) (d : dict) (v : value) :
  get_truthy k d = Some v -> get k d = Some v /\ truthy v = true.
Proof.
  unfold get_truthy. destruct (get k d) as [x|]; [|discriminate].
  destruct (truthy x) eqn:Hx; [|discriminate].
  intros H. injection H as <-. now split.
Qed.

(** C7. A table with a [path] and a true [develop] yields exactly one
    more warning, which names the dependency, and still the plain
    specifier [name @ file://<absolute-path>]. *)
Theorem editable_path_dependency (E : Env) (name : string) (d : dict)
    (p path abs_path : string) (warnings : list string) :
  get "path" d = Some (VStr p) ->
  truthy_opt (get "develop" d) = true ->
  path_expanduser E p = Ok path ->
  (if path_is_absolute E path then Ok path else path_cwd_resolve E path)
  = Ok abs_path ->
  exists warning,
    dep_table_to_pep508 E name (VDict d) warnings
    = Ok (name ++ " @ file://" ++ abs_path, (warnings ++ [warning])%list)
    /\ mentions name warning.
Proof.
  intros Hp Hd He Ha. exists (editable_warning name path). split.
  - unfold dep_table_to_pep508. rewrite Hp, He. cbn [bind].
    rewrite Hd, Ha. reflexivity.
  - unfold mentions, editable_warning. eexists _, _. reflexivity.
Qed.

Lemma editable_path_dependency_witness :
  exists warning,
    dep_table_to_pep508 example_env "localtool"
      (VDict [("path", VStr "../localtool"); ("develop", VBool true)]) []
    = Ok ("localtool" ++ " @ file://" ++ "/work/../localtool",
          ([] ++ [warning])%list)
    /\ mentions "localtool" warning.
Proof.
  apply (editable_path_dependency example_env "localtool"
           [("path", VStr "../localtool"); ("develop", VBool true)]
           "../localtool" "../localtool" "/work/../localtool" []);
    reflexivity.
Defined.

(** C9, as the code has it: in a version-control table the ref is the
    first of [rev], [tag], [branch] whose value is true (for a string:
    not empty); the specifier is [name @ git+<url>@ref], and without such a
    ref [name @ git+<url>].  Where every ref key that is present has a true
    value, that is the first present key. *)
Theorem vcs_ref_priority (E : Env) (name : string) (d : dict) (url : value)
    (warnings : list string) :
  get "path" d = None ->
  get "git" d = Some url ->
  dep_table_to_pep508 E name (VDict d) warnings
  = Ok (git_specifier E name url (first_truthy_ref d), warnings)
  /\ ((forall k v, In k ["rev"; "tag"; "branch"] -> get k d = Some v ->
                   truthy v = true) ->
      first_truthy_ref d = first_present_ref d).
Proof.
  intros Hp Hg. split.
  - unfold dep_table_to_pep508. rewrite Hp, Hg.
    unfold first_truthy_ref, get_truthy, py_or, truthy_opt, git_specifier.
    destruct (get "rev" d) as [r|], (get "tag" d) as [t|],
      (get "branch" d) as [b|];
      repeat match goal with
             | |- context [truthy ?v] => destruct (truthy v) eqn:?
             end;
      congruence.
  - intros Hall. unfold first_truthy_ref, first_present_ref, get_truthy.
    destruct (get "rev" d) as [r|] eqn:Hr.
    { now rewrite (Hall "rev" r) by (simpl; auto). }
    destruct (get "tag" d) as [t|] eqn:Ht.
    { now rewrite (Hall "tag" t) by (simpl; auto). }
    destruct (get "branch" d) as [b|] eqn:Hb; [|reflexivity].
    now rewrite (Hall "branch" b) by (simpl; auto).
Qed.

Lemma vcs_ref_priority_witness :
  dep_table_to_pep508 example_env "lib"
    (VDict [("git", VStr "https://h/r.git"); ("tag", VStr "v1");
            ("branch", VStr "main")]) []
  = Ok ("lib @ git+https://h/r.git@v1", []).
Proof.
  refine (proj1 (vcs_ref_priority example_env "lib"
                   [("git", VStr "https://h/r.git"); ("tag", VStr "v1");
                    ("branch", VStr "main")]
                   (VStr "https://h/r.git") [] _ _)); reflexivity.
Defined.

(** C9 as stated fails: [rev] is present and empty, and [tag] is taken. *)
Lemma vcs_ref_counterexample :
  let d := [("git", VStr "u"); ("rev", VStr ""); ("tag", VStr "v1")] in
  first_present_ref d = Some (VStr "")
  /\ dep_table_to_pep508 example_env "x" (VDict d) []
     = Ok ("x @ git+u@v1", [])
  /\ dep_table_to_pep508 example_env "x" (VDict d) []
     <> Ok (git_specifier example_env "x" (VStr "u") (first_present_ref d),
            []).
Proof. repeat split; try reflexivity. discriminate. Qed.

(** *** The order on keys *)









(** *** [sorted] *)

Lemma insert_by_perm (x : string) (l : list string) :
  Permutation (x :: l) (insert_by Py.lower x l).
Proof.
  induction l as [|y r IH]; simpl; [reflexivity|].
  destruct (String.leb (Py.lower x) (Py.lower y)); [reflexivity|].
  rewrite perm_swap. now apply perm_skip.
Qed.

Lemma sorted_by_perm (l : list string) :
  Permutation l (sorted_by Py.lower l).
Proof.
  induction l as [|x r IH]; simpl; [reflexivity|].
  rewrite <- insert_by_perm. now apply perm_skip.
Qed.






(** *** Warnings are only appended *)

Ltac case_scrutinee :=
  match goal with
  | |- context [bind ?m _] =>
      lazymatch m with
      | context [bind _ _] => fail
      | context [match _ with _ => _ end] => fail
      | _ => destruct m eqn:?; cbn [bind]
      end
  | |- context [match ?x with _ => _ end] =>
      lazymatch x with
      | context [bind _ _] => fail
      | context [match _ with _ => _ end] => fail
      | _ => destruct x eqn:?; cbn [bind]
      end
  end.

Lemma dep_table_warnings (E : Env) (name : string) (val : value)
    (w : list string) :
  dep_table_to_pep508 E name val w
  = match dep_table_to_pep508 E name val [] with
    | Ok (s, ws) => Ok (s, (w ++ ws)%list)
    | Raise e => Raise e
    end.
Proof.
  unfold dep_table_to_pep508.
  repeat case_scrutinee; rewrite ?app_nil_r; reflexivity.
Qed.

Lemma deps_loop_acc (E : Env) (items : dict) :
  forall out w,
    deps_loop E items out w
    = match deps_loop E items [] [] with
      | Ok (o, ws) => Ok ((out ++ o)%list, (w ++ ws)%list)
      | Raise e => Raise e
      end.
Proof.
  induction items as [|[name val] r IH]; intros out w; cbn [deps_loop].
  - now rewrite !app_nil_r.
  - destruct (Py.lower name =? "python"); [apply IH|].
    rewrite (dep_table_warnings E name val w).
    destruct (dep_table_to_pep508 E name val []) as [[s ws]|e];
      cbn [bind]; [|reflexivity].
    rewrite (IH (out ++ [s])%list (w ++ ws)%list).
    rewrite (IH ([] ++ [s])%list ws).
    destruct (deps_loop E r [] []) as [[o ws']|e]; [|reflexivity].
    now rewrite <- !app_assoc.
Qed.

Lemma deps_loop_cons (E : Env) (name : string) (val : value) (r : dict) :
  deps_loop E ((name, val) :: r) [] []
  = if Py.lower name =? "python" then deps_loop E r [] []
    else match dep_table_to_pep508 E name val [] with
         | Ok (s, w1) =>
             match deps_loop E r [] [] with
             | Ok (o, ws) => Ok (s :: o, (w1 ++ ws)%list)
             | Raise e => Raise e
             end
         | Raise e => Raise e
         end.
Proof.
  cbn [deps_loop]. destruct (Py.lower name =? "python"); [reflexivity|].
  destruct (dep_table_to_pep508 E name val []) as [[s w1]|e];
    cbn [bind]; [|reflexivity].
  now rewrite deps_loop_acc.
Qed.


Lemma poetry_deps_unfold (E : Env) (deps : dict) (w : list string) :
  poetry_deps_to_pep621 E (VDict deps) w
  = match deps_loop E deps [] [] with
    | Ok (o, ws) => Ok (sorted_by Py.lower o, (w ++ ws)%list)
    | Raise e => Raise e
    end.
Proof.
  unfold poetry_deps_to_pep621.
  destruct deps as [|kv r].
  - cbn. now rewrite app_nil_r.
  - cbn [truthy bind]. rewrite deps_loop_acc.
    now destruct (deps_loop E (kv :: r) [] []) as [[o ws]|e].
Qed.




(* ================================================================== *)
(** ** DocumentSerializer *)

Lemma join_cons (sep x : string) (r : list string) :
  r <> [] -> Py.join sep (x :: r) = x ++ sep ++ Py.join sep r.
Proof. destruct r; [contradiction | reflexivity]. Qed.

Lemma join_unlines (l : list string) :
  l <> [] -> Py.join nl l ++ nl = unlines l.
Proof.
  induction l as [|x r IH]; [contradiction|]. intros _.
  destruct r as [|y r].
  - cbn [Py.join unlines]. now rewrite append_nil_r.
  - rewrite join_cons by discriminate.
    cbn [unlines] in *. rewrite <- IH by discriminate.
    now rewrite !append_assoc.
Qed.

Lemma unlines_app (a b : list string) :
  unlines (a ++ b) = unlines a ++ unlines b.
Proof.
  induction a as [|x a IH]; [reflexivity|].
  cbn [List.app unlines]. now rewrite IH, !append_assoc.
Qed.

(** *** Arrays *)

Lemma array_elements (init : list string) (last : string) :
  Py.join ("," ++ nl)
    (map (fun x => "  " ++ dq ++ toml_escape x ++ dq) (init ++ [last]))
    ++ nl ++ "]"
  = Py.join nl
      (map element_with_comma init ++ [element_plain last; "]"%string])%list.
Proof.
  induction init as [|x r IH]; [reflexivity|].
  cbn [map List.app]. rewrite !join_cons.
  - rewrite <- IH. unfold element_with_comma, element_plain, quoted.
    now rewrite !append_assoc.
  - destruct r; discriminate.
  - destruct r; discriminate.
Qed.

Lemma dump_toml_array_elements (init : list string) (last : string) :
  dump_toml_array_str (init ++ [last]) 2
  = Py.join nl
      ("["%string
       :: map element_with_comma init ++ [element_plain last; "]"%string])%list.
Proof.
  rewrite join_cons by (destruct init; discriminate).
  rewrite <- array_elements. reflexivity.
Qed.

Lemma quote_strings (reqs : list string) :
  mapM (fun x => e <- toml_escape_value x ;; Ok (dq ++ e ++ dq))
       (map VStr reqs)
  = Ok (map quoted reqs).
Proof.
  induction reqs as [|x r IH]; [reflexivity|].
  cbn [map mapM toml_escape_value bind]. now rewrite IH.
Qed.

Lemma build_system_lines_strings (reqs : list string) (backend : string) :
  build_system_lines
    (VDict [("requires", VList (map VStr reqs));
            ("build-backend", VStr backend)])
  = Ok [""%string;
        "[build-system]"%string;
        "requires = [" ++ Py.join ", " (map quoted reqs) ++ "]";
        "build-backend = " ++ quoted backend].
Proof.
  unfold build_system_lines. cbn [get_default get String.eqb Ascii.eqb
    Bool.eqb iterate bind].
  rewrite quote_strings. reflexivity.
Qed.

Ltac pick_line := repeat first [left; reflexivity | right].

(** C5 as stated fails: the last element of a dependency array has no
    comma after it, and the [requires] array has its elements on one
    line. *)
Lemma array_trailing_comma_counterexample :
  dump_toml_array_str ["a"; "b"] 2 <> array_with_trailing_commas ["a"; "b"]
  /\ exists text ws,
       build_pep621_toml example_env example_poetry
         (VDict [("requires", VList [VStr "setuptools"; VStr "wheel"])]) []
       = Ok (text, ws)
       /\ In (element_plain "requests >=2.31.0,<3.0.0")
             (Py.split (ascii_of_nat 10) text)
       /\ In ("requires = [" ++ quoted "setuptools" ++ ", "
                ++ quoted "wheel" ++ "]")
             (Py.split (ascii_of_nat 10) text).
Proof.
  split.
  - intros H. vm_compute in H. discriminate H.
  - eexists _, _. split; [vm_compute; reflexivity|].
    split; vm_compute; pick_line.
Qed.

(** *** Build requirements *)

Lemma build_system_lines_effective (d : dict) :
  build_system_lines (VDict d)
  = build_system_lines (effective_build_system d).
Proof. reflexivity. Qed.

Lemma build_effective (E : Env) (poetry d : dict) (w : list string) :
  build_pep621_toml E poetry (VDict d) w
  = build_pep621_toml E poetry (effective_build_system d) w.
Proof.
  unfold build_pep621_toml.
  destruct (build_project E poetry w) as [[proj w1]|e]; [|reflexivity].
  cbn [bind]. destruct d as [|kv r]; reflexivity.
Qed.

(** C6 as stated fails: a table with [requires] and [backend-path] gets
    a [build-backend] it did not have and loses [backend-path]. *)
Lemma build_system_passthrough_counterexample :
  get "build-backend" example_build_system = None
  /\ get "backend-path" example_build_system = Some (VList [VStr "."])
  /\ exists text,
       migrate_document example_env example_document = Ok (text, [])
       /\ occurs ("build-backend = " ++ quoted "poetry.core.masonry.api") text
          = true
       /\ occurs "backend-path" text = false.
Proof.
  split; [reflexivity|]. split; [reflexivity|].
  eexists. split; [vm_compute; reflexivity|].
  split; vm_compute; reflexivity.
Qed.

(** *** Optional dependencies *)



Lemma output_lines_optional (proj : project) (bs : value)
    (w lines : list string) :
  output_lines proj bs w = Ok lines ->
  exists pre post,
    lines
    = (pre ++ optional_dependencies_lines (proj_optional_dependencies proj)
           ++ post)%list.
Proof.
  unfold output_lines. repeat case_scrutinee; intros H; try discriminate H.
  injection H as <-.
  match goal with
  | |- exists pre post,
         (?h :: ?a ++ ?b ++ ?c ++ ?d ++ ?e ++ ?f ++ ?g ++ ?i ++ ?o ++ ?r)%list
         = _ =>
      exists (h :: a ++ b ++ c ++ d ++ e ++ f ++ g ++ i)%list, r
  end.
  cbn [List.app]. now rewrite <- !app_assoc.
Qed.

Lemma render_unlines (proj : project) (bs : value) (w : list string)
    (text : string) :
  render proj bs w = Ok text ->
  exists lines, output_lines proj bs w = Ok lines /\ text = unlines lines.
Proof.
  unfold render. destruct (output_lines proj bs w) as [lines|e] eqn:Hl;
    [|discriminate].
  cbn [bind]. intros H. injection H as <-. exists lines. split; [reflexivity|].
  apply join_unlines. intros ->.
  destruct (output_lines_optional _ _ _ _ Hl) as (pre & post & Hnil).
  unfold output_lines in Hl. revert Hl.
  repeat case_scrutinee; discriminate.
Qed.


(** *** The lines of a text *)

Lemma split_cons (c : ascii) (s : string) :
  exists h t, Py.split c s = h :: t.
Proof.
  induction s as [|x s (h & t & IH)]; [now eexists _, _|].
  cbn [Py.split]. destruct (Ascii.eqb x c); [now eexists _, _|].
  rewrite IH. now eexists _, _.
Qed.

Lemma split_at_sep (c : ascii) (a b : string) :
  Py.split c (a ++ String c b) = (Py.split c a ++ Py.split c b)%list.
Proof.
  induction a as [|x a IH].
  - cbn [append Py.split List.app]. now rewrite Ascii.eqb_refl.
  - cbn [append Py.split]. rewrite IH.
    destruct (Ascii.eqb x c); [reflexivity|].
    destruct (split_cons c a) as (h & t & ->). reflexivity.
Qed.

Lemma split_single_line (s : string) :
  single_line s = true -> Py.split (ascii_of_nat 10) s = [s].
Proof.
  unfold single_line. induction s as [|x s IH]; [reflexivity|].
  cbn [all_chars]. intros H. apply andb_true_iff in H as [Hx Hs].
  cbn [Py.split]. apply negb_true_iff in Hx. rewrite Hx.
  now rewrite (IH Hs).
Qed.

Lemma unlines_cons_app (x : string) (r : list string) (rest : string) :
  unlines (x :: r) ++ rest
  = x ++ String (ascii_of_nat 10) (unlines r ++ rest).
Proof. cbn [unlines]. unfold nl. now rewrite !append_assoc. Qed.

Lemma split_unlines (L : list string) (rest : string) :
  forallb single_line L = true ->
  Py.split (ascii_of_nat 10) (unlines L ++ rest)
  = (L ++ Py.split (ascii_of_nat 10) rest)%list.
Proof.
  induction L as [|x r IH]; [reflexivity|].
  cbn [forallb]. intros H. apply andb_true_iff in H as [Hx Hr].
  rewrite unlines_cons_app, split_at_sep, (split_single_line _ Hx), (IH Hr).
  reflexivity.
Qed.

Lemma split_unlines_prefix (A : list string) (rest : string) :
  exists pre,
    Py.split (ascii_of_nat 10) (unlines A ++ rest)
    = (pre ++ Py.split (ascii_of_nat 10) rest)%list.
Proof.
  induction A as [|x r (pre & IH)]; [now exists []|].
  exists (Py.split (ascii_of_nat 10) x ++ pre)%list.
  rewrite unlines_cons_app, split_at_sep, IH. now rewrite app_assoc.
Qed.

(** *** No other line is the header of the optional dependencies *)






















(** *** Parts of the output

    Lines [Q] of the output whose text is that of the lines [L]: the text
    of [L] is a part of the output, and where no line of [L] has a newline
    in it the lines of [L] are lines of the output, one after the other. *)
Lemma lines_segment (lines A Q R L : list string) :
  lines = (A ++ Q ++ R)%list -> unlines Q = unlines L ->
  (exists pre post, unlines lines = pre ++ unlines L ++ post)
  /\ (forallb single_line L = true ->
      consecutive L (text_lines (unlines lines))).
Proof.
  intros -> HQ. rewrite !unlines_app, HQ. split; [now eexists _, _|].
  intros HL.
  destruct (split_unlines_prefix A (unlines L ++ unlines R)) as (pre & H).
  exists pre, (Py.split (ascii_of_nat 10) (unlines R)).
  unfold text_lines. now rewrite H, split_unlines.
Qed.

Lemma single_line_app (a b : string) :
  single_line a = true -> single_line b = true ->
  single_line (a ++ b) = true.
Proof.
  unfold single_line. intros Ha Hb. now rewrite all_chars_app, Ha, Hb.
Qed.

Lemma single_line_replace (old : ascii) (new s : string) :
  single_line new = true -> single_line s = true ->
  single_line (Py.replace_char old new s) = true.
Proof.
  intros Hn. induction s as [|x s IH]; [reflexivity|].
  intros H. unfold single_line in H. cbn [all_chars] in H.
  apply andb_true_iff in H as [Hx Hs].
  cbn [Py.replace_char]. destruct (Ascii.eqb x old).
  - apply single_line_app; [exact Hn | now apply IH].
  - unfold single_line. cbn [all_chars]. rewrite Hx. now apply IH.
Qed.

Lemma single_line_escape (s : string) :
  single_line s = true -> single_line (toml_escape s) = true.
Proof.
  intros H. unfold toml_escape.
  apply single_line_replace; [reflexivity|].
  now apply single_line_replace.
Qed.

Lemma single_line_quoted (x : string) :
  single_line x = true -> single_line (quoted x) = true.
Proof.
  intros H. unfold quoted.
  apply single_line_app; [reflexivity|].
  apply single_line_app; [now apply single_line_escape | reflexivity].
Qed.

Lemma single_line_element_plain (x : string) :
  single_line x = true -> single_line (element_plain x) = true.
Proof.
  intros H. unfold element_plain.
  apply single_line_app; [reflexivity | now apply single_line_quoted].
Qed.

Lemma single_line_element_with_comma (x : string) :
  single_line x = true -> single_line (element_with_comma x) = true.
Proof.
  intros H. unfold element_with_comma.
  apply single_line_app; [reflexivity|].
  apply single_line_app; [now apply single_line_quoted | reflexivity].
Qed.

Lemma single_line_author (a : author) :
  author_single_line a = true -> single_line (author_line a) = true.
Proof.
  unfold author_single_line, author_line. intros H.
  apply andb_true_iff in H as [Hn He].
  destruct (author_email a) as [email|].
  - repeat first [ reflexivity
                 | now apply single_line_escape
                 | apply single_line_app ].
  - repeat first [ reflexivity
                 | now apply single_line_escape
                 | apply single_line_app ].
Qed.

Lemma single_line_join (sep : string) (l : list string) :
  single_line sep = true -> forallb single_line l = true ->
  single_line (Py.join sep l) = true.
Proof.
  intros Hs. induction l as [|x r IH]; [reflexivity|].
  cbn [forallb]. intros H. apply andb_true_iff in H as [Hx Hr].
  destruct r as [|y r]; [exact Hx|].
  rewrite join_cons by discriminate.
  apply single_line_app; [exact Hx|].
  apply single_line_app; [exact Hs | now apply IH].
Qed.

Lemma single_line_map {A : Type} (f : A -> string) (p : A -> bool)
    (l : list A) :
  (forall x, p x = true -> single_line (f x) = true) ->
  forallb p l = true -> forallb single_line (map f l) = true.
Proof.
  intros Hf. induction l as [|x r IH]; [reflexivity|].
  cbn [forallb map]. intros H. apply andb_true_iff in H as [Hx Hr].
  now rewrite (Hf x Hx), (IH Hr).
Qed.

Lemma single_line_authors_array (authors : list author) :
  forallb author_single_line authors = true ->
  forallb single_line (authors_array_lines authors) = true.
Proof.
  intros H. unfold authors_array_lines. cbn [forallb].
  rewrite forallb_app.
  now rewrite (single_line_map author_line author_single_line authors
                 single_line_author H).
Qed.

Lemma single_line_array (key : string) (init : list string) (last : string) :
  single_line key = true ->
  forallb single_line (init ++ [last])%list = true ->
  forallb single_line (array_lines key init last) = true.
Proof.
  intros Hk H. rewrite forallb_app in H.
  apply andb_true_iff in H as [Hi Hl]. cbn [forallb] in Hl.
  rewrite andb_true_r in Hl.
  unfold array_lines, array_open. cbn [forallb]. rewrite forallb_app.
  cbn [forallb]. rewrite (single_line_app key " = [" Hk eq_refl).
  rewrite (single_line_map element_with_comma single_line init
             single_line_element_with_comma Hi).
  now rewrite (single_line_element_plain last Hl).
Qed.

Lemma single_line_requires (reqs : list string) :
  forallb single_line reqs = true -> single_line (requires_line reqs) = true.
Proof.
  intros H. unfold requires_line.
  apply single_line_app; [reflexivity|].
  apply single_line_app; [|reflexivity].
  apply single_line_join; [reflexivity|].
  now apply (single_line_map quoted single_line reqs single_line_quoted).
Qed.

(** The one line of a dependency array in [lines] has the text of the
    lines of the array. *)
Lemma array_unlines (key : string) (init : list string) (last : string) :
  unlines [group_line (key, (init ++ [last])%list)]
  = unlines (array_lines key init last).
Proof.
  unfold group_line. cbn [fst snd].
  rewrite dump_toml_array_elements. unfold array_lines, array_open.
  set (els := (map element_with_comma init
               ++ [element_plain last; "]"%string])%list).
  assert (Hne : els <> []) by (subst els; destruct init; discriminate).
  rewrite <- (join_unlines ((key ++ " = [") :: els)) by discriminate.
  rewrite !join_cons by exact Hne.
  cbn [unlines]. rewrite !append_assoc. reflexivity.
Qed.

Lemma author_line_comma (a : author) :
  exists body, author_line a = "  " ++ body ++ ",".
Proof.
  unfold author_line. destruct (author_email a) as [email|].
  - exists ("{ name = " ++ dq ++ toml_escape (author_name a) ++ dq
            ++ ", email = " ++ dq ++ toml_escape email ++ dq ++ " }").
    repeat first [rewrite append_assoc | progress cbn [append]]. reflexivity.
  - exists ("{ name = " ++ dq ++ toml_escape (author_name a) ++ dq ++ " }").
    repeat first [rewrite append_assoc | progress cbn [append]]. reflexivity.
Qed.

Lemma toml_escape_value_inv (v : value) (e : string) :
  toml_escape_value v = Ok e -> exists s, v = VStr s /\ e = toml_escape s.
Proof.
  destruct v; try discriminate. cbn [toml_escape_value].
  intros H. injection H as <-. now eexists.
Qed.

Lemma quote_strings_inv (items : list value) :
  forall qs,
    mapM (fun x => e <- toml_escape_value x ;; Ok (dq ++ e ++ dq)) items
    = Ok qs ->
    exists reqs, items = map VStr reqs /\ qs = map quoted reqs.
Proof.
  induction items as [|x r IH]; intros qs.
  - intros H. injection H as <-. now exists [].
  - cbn [mapM].
    destruct (toml_escape_value x) as [e|e] eqn:Hx; cbn [bind];
      [|discriminate].
    destruct (mapM _ r) as [ls|e'] eqn:Hr; cbn [bind]; [|discriminate].
    intros H. injection H as <-.
    destruct (toml_escape_value_inv _ _ Hx) as (s & -> & ->).
    destruct (IH _ eq_refl) as (reqs & -> & ->).
    now exists (s :: reqs).
Qed.

(** The build-system lines, read back: the table is a dict, what it has
    (or the default has) under [requires] is iterated to strings, what it
    has under [build-backend] is a string, and the lines are the header
    and these two entries. *)
Lemma build_system_lines_inv (bs : value) (l : list string) :
  build_system_lines bs = Ok l ->
  exists d reqs backend,
    bs = VDict d
    /\ iterate (get_default "requires" d default_requires)
       = Ok (map VStr reqs)
    /\ get_default "build-backend" d default_backend = VStr backend
    /\ l = build_system_table reqs backend.
Proof.
  destruct bs as [s|z|b|f|t|vs|d]; try discriminate.
  unfold build_system_lines.
  destruct (iterate _) as [items|e] eqn:Hi; cbn [bind]; [|discriminate].
  destruct (mapM _ items) as [qs|e] eqn:Hq; cbn [bind]; [|discriminate].
  destruct (toml_escape_value _) as [bk|e] eqn:Hb; cbn [bind];
    [|discriminate].
  intros H. injection H as <-.
  destruct (quote_strings_inv _ _ Hq) as (reqs & -> & ->).
  destruct (toml_escape_value_inv _ _ Hb) as (backend & Hbk & ->).
  exists d, reqs, backend. repeat split; trivial.
Qed.

Lemma map_VStr_inj (a b : list string) : map VStr a = map VStr b -> a = b.
Proof.
  revert b. induction a as [|x a IH]; intros [|y b] H; try discriminate H.
  - reflexivity.
  - cbn [map] in H. injection H as -> H. now rewrite (IH _ H).
Qed.

(** The list [lines], part by part. *)
Lemma output_lines_parts (proj : project) (bs : value)
    (w lines : list string) :
  output_lines proj bs w = Ok lines ->
  exists a b c l_build,
    build_system_lines bs = Ok l_build
    /\ lines
       = (a ++ authors_lines (proj_authors proj) ++ b
            ++ dependencies_lines (proj_dependencies proj)
            ++ optional_dependencies_lines (proj_optional_dependencies proj)
            ++ c ++ l_build ++ notes_lines w)%list.
Proof.
  unfold output_lines.
  destruct (scalar_line "name" _) as [a1|e]; [|discriminate].
  cbn [bind].
  destruct (scalar_line "version" _) as [a2|e]; [|discriminate].
  cbn [bind].
  destruct (scalar_line "description" _) as [a3|e]; [|discriminate].
  cbn [bind].
  destruct (scalar_line "readme" _) as [a4|e]; [|discriminate].
  cbn [bind].
  destruct (license_lines _) as [a5|e]; [|discriminate].
  cbn [bind].
  destruct (urls_lines _) as [a6|e]; [|discriminate].
  cbn [bind].
  destruct (scripts_lines _) as [a7|e]; [|discriminate].
  cbn [bind].
  destruct (build_system_lines bs) as [a8|e]; [|discriminate].
  cbn [bind]. intros H. injection H as <-.
  exists ("[project]"%string :: a1 ++ a2 ++ a3 ++ a4)%list, (a5 ++ a6)%list,
    a7, a8.
  split; [reflexivity|]. cbn [List.app]. now rewrite <- !app_assoc.
Qed.

Lemma build_render (E : Env) (poetry : dict) (bs : value)
    (w w1 : list string) (text : string) :
  build_pep621_toml E poetry bs w = Ok (text, w1) ->
  exists proj lines,
    build_project E poetry w = Ok (proj, w1)
    /\ output_lines proj (build_system_used bs) w1 = Ok lines
    /\ text = unlines lines.
Proof.
  unfold build_pep621_toml. intros H.
  destruct (build_project E poetry w) as [[proj wa]|e]; [|discriminate H].
  cbn [bind] in H. fold (build_system_used bs) in H.
  destruct (render proj _ wa) as [t|e] eqn:Hr; [|discriminate H].
  cbn [bind] in H. injection H as <- <-.
  destruct (render_unlines _ _ _ _ Hr) as (lines & Hl & ->).
  now exists proj, lines.
Qed.

(** C5, as the code has it, of the text [build_pep621_toml] returns.
    The authors array is written with a line per author, indented by two
    blanks and closed by a comma; the dependency array and the array of
    the [dev] group are written with a line per element, indented by two
    blanks, a comma after every element but the last; the [requires]
    array is written on the line after the header [[build-system]], its
    elements separated by a comma and a blank.  Each of these is a part
    of the text, and where no element has a newline in it, its lines are
    lines of the text, one after the other. *)
Theorem array_rendering (E : Env) (poetry : dict) (bs : value)
    (w w1 : list string) (text : string) (proj : project) :
  build_pep621_toml E poetry bs w = Ok (text, w1) ->
  build_project E poetry w = Ok (proj, w1) ->
  (forall authors,
     proj_authors proj = Some authors ->
     (exists pre post,
        text = pre ++ unlines (authors_array_lines authors) ++ post)
     /\ (forall a, exists body, author_line a = "  " ++ body ++ ",")
     /\ (forallb author_single_line authors = true ->
         consecutive (authors_array_lines authors) (text_lines text)))
  /\ (forall init last,
        proj_dependencies proj = Some (init ++ [last])%list ->
        (exists pre post,
           text = pre ++ unlines (array_lines "dependencies" init last)
                      ++ post)
        /\ (forallb single_line (init ++ [last])%list = true ->
            consecutive (array_lines "dependencies" init last)
              (text_lines text)))
  /\ (forall init last,
        proj_optional_dependencies proj
        = Some [("dev"%string, (init ++ [last])%list)] ->
        (exists pre post,
           text = pre ++ unlines (optional_header
                                  :: array_lines "dev" init last)
                      ++ post)
        /\ (forallb single_line (init ++ [last])%list = true ->
            consecutive (optional_header :: array_lines "dev" init last)
              (text_lines text)))
  /\ (forall d reqs,
        build_system_used bs = VDict d ->
        iterate (get_default "requires" d default_requires)
        = Ok (map VStr reqs) ->
        (exists pre post,
           text = pre ++ unlines ["[build-system]"%string;
                                  requires_line reqs]
                      ++ post)
        /\ (forallb single_line reqs = true ->
            consecutive ["[build-system]"%string; requires_line reqs]
              (text_lines text))).
Proof.
  intros H Hp.
  destruct (build_render _ _ _ _ _ _ H) as (proj' & lines & Hp' & Hl & ->).
  rewrite Hp in Hp'. injection Hp' as <-.
  destruct (output_lines_parts _ _ _ _ Hl) as (a & b & c & lb & Hb & Hlines).
  split; [|split; [|split]].
  - intros authors Ha. rewrite Ha in Hlines.
    destruct (lines_segment lines a (authors_array_lines authors) _
                (authors_array_lines authors) Hlines eq_refl) as [Hs Hc].
    split; [exact Hs|]. split; [apply author_line_comma|].
    intros Hsl. apply Hc. now apply single_line_authors_array.
  - intros init last Hd. rewrite Hd in Hlines.
    assert (Hq : lines
                 = ((a ++ authors_lines (proj_authors proj) ++ b
                       ++ [""%string])
                    ++ [group_line ("dependencies"%string,
                                    (init ++ [last])%list)]
                    ++ optional_dependencies_lines
                         (proj_optional_dependencies proj)
                    ++ c ++ lb ++ notes_lines w1)%list).
    { rewrite Hlines. rewrite <- !app_assoc. reflexivity. }
    destruct (lines_segment lines _ _ _ (array_lines "dependencies" init last)
                Hq (array_unlines _ _ _)) as [Hs Hc].
    split; [exact Hs|]. intros Hsl. apply Hc.
    now apply single_line_array.
  - intros init last Ho. rewrite Ho in Hlines.
    assert (Hq : lines
                 = ((a ++ authors_lines (proj_authors proj) ++ b
                       ++ dependencies_lines (proj_dependencies proj)
                       ++ [""%string])
                    ++ [optional_header;
                        group_line ("dev"%string, (init ++ [last])%list)]
                    ++ c ++ lb ++ notes_lines w1)%list).
    { rewrite Hlines. rewrite <- !app_assoc. reflexivity. }
    assert (Hu : unlines [optional_header;
                          group_line ("dev"%string, (init ++ [last])%list)]
                 = unlines (optional_header :: array_lines "dev" init last)).
    { change (optional_header ++ nl
                ++ unlines [group_line ("dev"%string,
                                        (init ++ [last])%list)]
              = optional_header ++ nl
                  ++ unlines (array_lines "dev" init last)).
      now rewrite array_unlines. }
    destruct (lines_segment lines _ _ _ _ Hq Hu) as [Hs Hc].
    split; [exact Hs|]. intros Hsl. apply Hc.
    cbn [forallb]. now rewrite single_line_array.
  - intros d reqs Hbs Hi.
    destruct (build_system_lines_inv _ _ Hb)
      as (d' & reqs' & backend & Hbs' & Hi' & _ & ->).
    rewrite Hbs in Hbs'. injection Hbs' as <-.
    rewrite Hi in Hi'. injection Hi' as Hr. apply map_VStr_inj in Hr.
    subst reqs'.
    assert (Hq : lines
                 = ((a ++ authors_lines (proj_authors proj) ++ b
                       ++ dependencies_lines (proj_dependencies proj)
                       ++ optional_dependencies_lines
                            (proj_optional_dependencies proj)
                       ++ c ++ [""%string])
                    ++ ["[build-system]"%string; requires_line reqs]
                    ++ backend_line backend :: notes_lines w1)%list).
    { rewrite Hlines. rewrite <- !app_assoc. reflexivity. }
    destruct (lines_segment lines _ _ _ _ Hq eq_refl) as [Hs Hc].
    split; [exact Hs|]. intros Hsl. apply Hc.
    cbn [forallb]. now rewrite single_line_requires.
Qed.

Lemma array_rendering_witness :
  consecutive
    (array_lines "dependencies" ["localtool @ file:///work/../localtool"]
       "requests >=2.31.0,<3.0.0")
    (text_lines (fst example_output))
  /\ consecutive
       (authors_array_lines
          [{| author_name := "Jane Doe"; author_email := None |}])
       (text_lines (fst example_output))
  /\ consecutive
       (optional_header :: array_lines "dev" [] "pytest >=7.4,<7.5")
       (text_lines (fst example_output))
  /\ consecutive
       ["[build-system]"%string; requires_line ["poetry-core>=1.9.0"]]
       (text_lines (fst example_output)).
Proof.
  destruct (array_rendering example_env example_poetry (VDict []) []
              (snd example_output) (fst example_output)
              {| proj_name := VStr "demo";
                 proj_version := VStr "1.0.0";
                 proj_description := None;
                 proj_readme := None;
                 proj_authors :=
                   Some [{| author_name := "Jane Doe";
                            author_email := None |}];
                 proj_license := None;
                 proj_urls := None;
                 proj_dependencies :=
                   Some ["localtool @ file:///work/../localtool";
                         "requests >=2.31.0,<3.0.0"];
                 proj_optional_dependencies :=
                   Some [("dev", ["pytest >=7.4,<7.5"])];
                 proj_scripts := None |})
    as (Ha & Hd & Ho & Hr).
  - vm_compute. reflexivity.
  - vm_compute. reflexivity.
  - split; [|split; [|split]].
    + apply (Hd ["localtool @ file:///work/../localtool"]
                "requests >=2.31.0,<3.0.0"); reflexivity.
    + apply (Ha [{| author_name := "Jane Doe"; author_email := None |}]);
        reflexivity.
    + apply (Ho [] "pytest >=7.4,<7.5"); reflexivity.
    + apply (Hr [("requires", default_requires);
                 ("build-backend", default_backend)]
                ["poetry-core>=1.9.0"]); reflexivity.
Defined.

(** *** The build-system table in the output *)

(** C6, as the code has it: without a build-system table, or with an
    empty one, the default record is written; otherwise [requires] and
    [build-backend] are each taken from the table when it has the key and
    from the default when it has not, and no other key of the table is
    written.  The text [build_pep621_toml] returns ends with the table
    [[build-system]] of these two entries, followed by the notes only. *)
Theorem build_system_defaults (E : Env) :
  (forall poetry d w,
     build_pep621_toml E poetry (VDict d) w
     = build_pep621_toml E poetry (effective_build_system d) w)
  /\ effective_build_system [] = default_build_system
  /\ (forall reqs backend,
        build_system_lines
          (VDict [("requires", VList (map VStr reqs));
                  ("build-backend", VStr backend)])
        = Ok [""%string;
              "[build-system]"%string;
              "requires = [" ++ Py.join ", " (map quoted reqs) ++ "]";
              "build-backend = " ++ quoted backend])
  /\ (forall data,
        get "build-system" data = None ->
        migrate_document E data
        = migrate_document E (("build-system", default_build_system) :: data))
  /\ (forall poetry bs w text w1,
        build_pep621_toml E poetry bs w = Ok (text, w1) ->
        exists d reqs backend pre,
          build_system_used bs = VDict d
          /\ iterate (get_default "requires" d default_requires)
             = Ok (map VStr reqs)
          /\ get_default "build-backend" d default_backend = VStr backend
          /\ text = pre ++ unlines (build_system_table reqs backend)
                        ++ unlines (notes_lines w1))
  /\ (forall poetry bs w text w1,
        truthy bs = false ->
        build_pep621_toml E poetry bs w = Ok (text, w1) ->
        exists pre,
          text = pre ++ unlines (build_system_table ["poetry-core>=1.9.0"]
                                   "poetry.core.masonry.api")
                     ++ unlines (notes_lines w1))
  /\ (forall data text ws,
        get "build-system" data = None ->
        migrate_document E data = Ok (text, ws) ->
        exists pre,
          text = pre ++ unlines (build_system_table ["poetry-core>=1.9.0"]
                                   "poetry.core.masonry.api")
                     ++ unlines (notes_lines ws)).
Proof.
  assert (Htext : forall poetry bs w text w1,
            build_pep621_toml E poetry bs w = Ok (text, w1) ->
            exists d reqs backend pre,
              build_system_used bs = VDict d
              /\ iterate (get_default "requires" d default_requires)
                 = Ok (map VStr reqs)
              /\ get_default "build-backend" d default_backend = VStr backend
              /\ text = pre ++ unlines (build_system_table reqs backend)
                            ++ unlines (notes_lines w1)).
  { intros poetry bs w text w1 H.
    destruct (build_render _ _ _ _ _ _ H) as (proj & lines & Hp & Hl & ->).
    destruct (output_lines_parts _ _ _ _ Hl)
      as (a & b & c & lb & Hb & ->).
    destruct (build_system_lines_inv _ _ Hb)
      as (d & reqs & backend & Hbs & Hi & Hk & ->).
    exists d, reqs, backend.
    exists (unlines (a ++ authors_lines (proj_authors proj) ++ b
                       ++ dependencies_lines (proj_dependencies proj)
                       ++ optional_dependencies_lines
                            (proj_optional_dependencies proj)
                       ++ c)%list).
    split; [exact Hbs|]. split; [exact Hi|]. split; [exact Hk|].
    rewrite <- !unlines_app. now rewrite <- !app_assoc. }
  assert (Hdefault : forall poetry bs w text w1,
            truthy bs = false ->
            build_pep621_toml E poetry bs w = Ok (text, w1) ->
            exists pre,
              text = pre ++ unlines (build_system_table ["poetry-core>=1.9.0"]
                                       "poetry.core.masonry.api")
                         ++ unlines (notes_lines w1)).
  { intros poetry bs w text w1 Hf H.
    destruct (Htext _ _ _ _ _ H)
      as (d & reqs & backend & pre & Hbs & Hi & Hk & ->).
    unfold build_system_used in Hbs. rewrite Hf in Hbs.
    injection Hbs as <-.
    injection Hi as Hi. apply (map_VStr_inj ["poetry-core>=1.9.0"]) in Hi.
    injection Hk as <-. subst reqs. now exists pre. }
  split; [apply build_effective|]. split; [reflexivity|].
  split; [apply build_system_lines_strings|].
  split; [|split; [exact Htext|split; [exact Hdefault|]]].
  - intros data H. unfold migrate_document, get_default.
    cbn [get String.eqb Ascii.eqb Bool.eqb]. rewrite H.
    destruct (get "tool" data) as [[]|]; reflexivity.
  - intros data text ws Hn. unfold migrate_document.
    assert (Hg : get_default "build-system" data (VDict []) = VDict [])
      by (unfold get_default; now rewrite Hn).
    rewrite Hg.
    destruct (get_default "tool" data (VDict [])) as [s|z|b|f|t|vs|tool];
      try discriminate.
    destruct (negb _); [discriminate|].
    destruct (get_default "poetry" tool (VDict [])) as [s|z|b|f|t|vs|p];
      try discriminate.
    now apply Hdefault.
Qed.

Lemma build_system_defaults_witness :
  migrate_document example_env
    [("tool", VDict [("poetry", VDict [("name", VStr "demo")])])]
  = migrate_document example_env
      [("build-system", default_build_system);
       ("tool", VDict [("poetry", VDict [("name", VStr "demo")])])]
  /\ (exists pre,
        fst example_output
        = pre ++ unlines (build_system_table ["poetry-core>=1.9.0"]
                            "poetry.core.masonry.api")
              ++ unlines (notes_lines (snd example_output)))
  /\ exists text pre,
       migrate_document example_env
         [("tool", VDict [("poetry", VDict [("name", VStr "demo")])])]
       = Ok (text, [])
       /\ text = pre ++ unlines (build_system_table ["poetry-core>=1.9.0"]
                                   "poetry.core.masonry.api").
Proof.
  destruct (build_system_defaults example_env)
    as (_ & _ & _ & Hdoc & _ & Hdefault & Hmissing).
  split; [apply Hdoc; reflexivity|]. split.
  - apply (Hdefault example_poetry (VDict []) []); vm_compute; reflexivity.
  - destruct (Hmissing
                [("tool", VDict [("poetry", VDict [("name", VStr "demo")])])]
                (fst (match migrate_document example_env
                              [("tool",
                                VDict [("poetry",
                                        VDict [("name", VStr "demo")])])]
                      with
                      | Ok r => r
                      | Raise _ => (EmptyString, [])
                      end))
                [] eq_refl) as (pre & Hpre).
    + vm_compute. reflexivity.
    + eexists _, pre. split; [vm_compute; reflexivity|].
      rewrite Hpre at 1. cbn [notes_lines unlines].
      now rewrite append_nil_r.
Defined.

(** *** Default name and version *)

Lemma get_cons_other (k k' : string) (v : value) (d : dict) :
  (k' =? k) = false -> get k ((k', v) :: d) = get k d.
Proof. intros H. cbn [get]. now rewrite H. Qed.

Lemma get_default_cons_other (k k' : string) (v default : value) (d : dict) :
  (k' =? k) = false ->
  get_default k ((k', v) :: d) default = get_default k d default.
Proof. intros H. unfold get_default. now rewrite get_cons_other. Qed.

Lemma get_truthy_cons_other (k k' : string) (v : value) (d : dict) :
  (k' =? k) = false -> get_truthy k ((k', v) :: d) = get_truthy k d.
Proof. intros H. unfold get_truthy. now rewrite get_cons_other. Qed.

Lemma collect_urls_cons_other (k' : string) (v : value) (d : dict) :
  forallb (fun kl => negb (k' =? fst kl)) url_labels = true ->
  collect_urls url_labels ((k', v) :: d) = collect_urls url_labels d.
Proof.
  intros H. induction url_labels as [|[k label] r IH]; [reflexivity|].
  cbn [forallb fst] in H. apply andb_true_iff in H as [Hk Hr].
  apply negb_true_iff in Hk.
  cbn [collect_urls]. now rewrite get_truthy_cons_other, IH.
Qed.

Ltac skip_key :=
  rewrite ?get_default_cons_other, ?get_truthy_cons_other,
    ?get_cons_other, ?collect_urls_cons_other by reflexivity.

Ltac run_build_project :=
  destruct (parse_authors _ _) as [authors|e]; [|reflexivity];
  cbn [bind];
  destruct (poetry_deps_to_pep621 _ (get_default "dependencies" _ _) _)
    as [[dep_list wa]|e]; [|reflexivity];
  cbn [bind];
  destruct (match get_default "dev" _ _ with
            | VDict dev_group => Ok _
            | _ => Raise _
            end) as [src|e]; [|reflexivity];
  cbn [bind];
  destruct (poetry_deps_to_pep621 _ src wa) as [[dev_deps wb]|e];
    [|reflexivity];
  cbn [bind]; reflexivity.

Lemma build_project_name (E : Env) (v : value) (poetry : dict)
    (w : list string) :
  build_project E (("name"%string, v) :: poetry) w
  = match build_project E poetry w with
    | Ok (proj, w1) => Ok (set_name v proj, w1)
    | Raise e => Raise e
    end.
Proof. unfold build_project. skip_key. run_build_project. Qed.

Lemma build_project_version (E : Env) (v : value) (poetry : dict)
    (w : list string) :
  build_project E (("version"%string, v) :: poetry) w
  = match build_project E poetry w with
    | Ok (proj, w1) => Ok (set_version v proj, w1)
    | Raise e => Raise e
    end.
Proof. unfold build_project. skip_key. run_build_project. Qed.

Lemma build_project_defaults (E : Env) (poetry : dict) (w w1 : list string)
    (proj : project) :
  build_project E poetry w = Ok (proj, w1) ->
  set_name (get_default "name" poetry (VStr "unknown-package")) proj = proj
  /\ set_version (get_default "version" poetry (VStr "0.1.0")) proj = proj.
Proof.
  unfold build_project.
  destruct (parse_authors _ _) as [authors|e]; [|discriminate].
  cbn [bind].
  destruct (poetry_deps_to_pep621 _ (get_default "dependencies" _ _) _)
    as [[dep_list wa]|e]; [|discriminate].
  cbn [bind].
  destruct (match get_default "dev" _ _ with
            | VDict dev_group => Ok _
            | _ => Raise _
            end) as [src|e]; [|discriminate].
  cbn [bind].
  destruct (poetry_deps_to_pep621 _ src wa) as [[dev_deps wb]|e];
    [|discriminate].
  cbn [bind]. intros H. injection H as <- <-. split; reflexivity.
Qed.

Lemma output_lines_name (n : string) (proj : project) (bs : value)
    (w lines : list string) :
  output_lines (set_name (VStr n) proj) bs w = Ok lines ->
  exists rest,
    lines = "[project]"%string :: scalar "name" n :: rest
    /\ forall n',
         output_lines (set_name (VStr n') proj) bs w
         = Ok ("[project]"%string :: scalar "name" n' :: rest).
Proof.
  unfold output_lines.
  cbn [set_name proj_name proj_version proj_description proj_readme
       proj_authors proj_license proj_urls proj_dependencies
       proj_optional_dependencies proj_scripts].
  cbn [scalar_line toml_escape_value bind].
  destruct (toml_escape_value (proj_version proj)) as [ev|e];
    [|discriminate].
  cbn [bind].
  destruct (scalar_line "description" _) as [l1|e]; [|discriminate].
  cbn [bind].
  destruct (scalar_line "readme" _) as [l2|e]; [|discriminate].
  cbn [bind].
  destruct (license_lines _) as [l3|e]; [|discriminate].
  cbn [bind].
  destruct (urls_lines _) as [l4|e]; [|discriminate].
  cbn [bind].
  destruct (scripts_lines _) as [l5|e]; [|discriminate].
  cbn [bind].
  destruct (build_system_lines bs) as [l6|e]; [|discriminate].
  cbn [bind List.app]. intros H. injection H as <-.
  eexists. split; reflexivity.
Qed.

Lemma output_lines_version (v : string) (proj : project) (bs : value)
    (w lines : list string) :
  output_lines (set_version (VStr v) proj) bs w = Ok lines ->
  exists name_line rest,
    lines = "[project]"%string :: name_line :: scalar "version" v :: rest
    /\ forall v',
         output_lines (set_version (VStr v') proj) bs w
         = Ok ("[project]"%string :: name_line :: scalar "version" v' :: rest).
Proof.
  unfold output_lines.
  cbn [set_version proj_name proj_version proj_description proj_readme
       proj_authors proj_license proj_urls proj_dependencies
       proj_optional_dependencies proj_scripts].
  cbn [scalar_line toml_escape_value bind].
  destruct (toml_escape_value (proj_name proj)) as [en|e];
    [|discriminate].
  cbn [bind].
  destruct (scalar_line "description" _) as [l1|e]; [|discriminate].
  cbn [bind].
  destruct (scalar_line "readme" _) as [l2|e]; [|discriminate].
  cbn [bind].
  destruct (license_lines _) as [l3|e]; [|discriminate].
  cbn [bind].
  destruct (urls_lines _) as [l4|e]; [|discriminate].
  cbn [bind].
  destruct (scripts_lines _) as [l5|e]; [|discriminate].
  cbn [bind].
  destruct (build_system_lines bs) as [l6|e]; [|discriminate].
  cbn [bind List.app]. intros H. injection H as <-.
  eexists _, _. split; reflexivity.
Qed.

Lemma render_lines (proj : project) (bs : value) (w lines : list string) :
  output_lines proj bs w = Ok lines -> lines <> [] ->
  render proj bs w = Ok (unlines lines).
Proof.
  intros H Hn. unfold render. rewrite H. cbn [bind].
  now rewrite join_unlines.
Qed.

Lemma build_name_default (E : Env) (poetry : dict) (bs : value)
    (w : list string) :
  get "name" poetry = None ->
  build_pep621_toml E poetry bs w
  = build_pep621_toml E (("name"%string, VStr "unknown-package") :: poetry)
      bs w.
Proof.
  intros Hn. unfold build_pep621_toml. rewrite build_project_name.
  destruct (build_project E poetry w) as [[proj w1]|e] eqn:Hp;
    [|reflexivity].
  destruct (build_project_defaults _ _ _ _ _ Hp) as [H _].
  unfold get_default in H. rewrite Hn in H. now rewrite H.
Qed.

Lemma build_version_default (E : Env) (poetry : dict) (bs : value)
    (w : list string) :
  get "version" poetry = None ->
  build_pep621_toml E poetry bs w
  = build_pep621_toml E (("version"%string, VStr "0.1.0") :: poetry) bs w.
Proof.
  intros Hn. unfold build_pep621_toml. rewrite build_project_version.
  destruct (build_project E poetry w) as [[proj w1]|e] eqn:Hp;
    [|reflexivity].
  destruct (build_project_defaults _ _ _ _ _ Hp) as [_ H].
  unfold get_default in H. rewrite Hn in H. now rewrite H.
Qed.

(** With any name [n] in place of a missing one the output is the same
    but for the name line. *)
Lemma build_name_any (E : Env) (poetry : dict) (bs : value)
    (w w1 : list string) (n text : string) :
  build_pep621_toml E (("name"%string, VStr n) :: poetry) bs w
  = Ok (text, w1) ->
  exists rest,
    text = unlines ["[project]"%string; scalar "name" n] ++ rest
    /\ forall n',
         build_pep621_toml E (("name"%string, VStr n') :: poetry) bs w
         = Ok (unlines ["[project]"%string; scalar "name" n'] ++ rest, w1).
Proof.
  unfold build_pep621_toml. intros H.
  rewrite build_project_name in H.
  destruct (build_project E poetry w) as [[proj wa]|e] eqn:Hp;
    [|discriminate H].
  cbn [bind] in H.
  destruct (render _ _ wa) as [t|e] eqn:Hr; [|discriminate H].
  cbn [bind] in H. injection H as <- <-.
  destruct (render_unlines _ _ _ _ Hr) as (lines & Hl & ->).
  destruct (output_lines_name _ _ _ _ _ Hl) as (rest & -> & Hany).
  exists (unlines rest). split.
  - cbn [unlines]. now rewrite ?append_assoc, ?append_nil_r.
  - intros n'. rewrite build_project_name, Hp. cbn [bind].
    rewrite (render_lines _ _ _ _ (Hany n')) by discriminate.
    cbn [bind unlines]. now rewrite ?append_assoc, ?append_nil_r.
Qed.

Lemma build_version_any (E : Env) (poetry : dict) (bs : value)
    (w w1 : list string) (v text : string) :
  build_pep621_toml E (("version"%string, VStr v) :: poetry) bs w
  = Ok (text, w1) ->
  exists name_line rest,
    text = unlines ["[project]"%string; name_line; scalar "version" v] ++ rest
    /\ forall v',
         build_pep621_toml E (("version"%string, VStr v') :: poetry) bs w
         = Ok (unlines ["[project]"%string; name_line; scalar "version" v']
                 ++ rest, w1).
Proof.
  unfold build_pep621_toml. intros H.
  rewrite build_project_version in H.
  destruct (build_project E poetry w) as [[proj wa]|e] eqn:Hp;
    [|discriminate H].
  cbn [bind] in H.
  destruct (render _ _ wa) as [t|e] eqn:Hr; [|discriminate H].
  cbn [bind] in H. injection H as <- <-.
  destruct (render_unlines _ _ _ _ Hr) as (lines & Hl & ->).
  destruct (output_lines_version _ _ _ _ _ Hl) as (nm & rest & -> & Hany).
  exists nm, (unlines rest). split.
  - cbn [unlines]. now rewrite ?append_assoc, ?append_nil_r.
  - intros v'. rewrite build_project_version, Hp. cbn [bind].
    rewrite (render_lines _ _ _ _ (Hany v')) by discriminate.
    cbn [bind unlines]. now rewrite ?append_assoc, ?append_nil_r.
Qed.

(** A table with nothing for the serializer to read is serialized. *)
Lemma build_bare (E : Env) (poetry : dict) (w : list string) :
  (forall k, In k serializer_keys -> get k poetry = None) ->
  build_pep621_toml E poetry (VDict []) w
  = Ok (unlines (bare_lines ++ notes_lines w), w).
Proof.
  intros H.
  assert (Hk : forall k, In k serializer_keys ->
                         get_default k poetry = (fun d => d)
                         /\ get_truthy k poetry = None).
  { intros k Hin. unfold get_default, get_truthy. now rewrite (H k Hin). }
  unfold build_pep621_toml, build_project, url_labels.
  cbn [collect_urls].
  repeat match goal with
         | |- context [get_default ?k poetry] =>
             rewrite (proj1 (Hk k ltac:(simpl; tauto)))
         | |- context [get_truthy ?k poetry] =>
             rewrite (proj2 (Hk k ltac:(simpl; tauto)))
         | |- context [get ?k poetry] =>
             rewrite (H k ltac:(simpl; tauto))
         end.
  cbn -[notes_lines Py.join unlines].
  rewrite <- join_unlines by discriminate.
  reflexivity.
Qed.

(** C10. A metadata table without [name], or without [version], is
    serialized as if it had the name [unknown-package], or the version
    [0.1.0]: where the table extended by any name (version) is serialized,
    so is the table without it, with the same text but for the default in
    the name (version) line; and a table with nothing else for the
    serializer to read is serialized, with both defaults. *)
Theorem default_name_version (E : Env) (poetry : dict) (bs : value)
    (w : list string) :
  (get "name" poetry = None ->
   build_pep621_toml E poetry bs w
   = build_pep621_toml E (("name"%string, VStr "unknown-package") :: poetry)
       bs w
   /\ (forall n text w1,
         build_pep621_toml E (("name"%string, VStr n) :: poetry) bs w
         = Ok (text, w1) ->
         exists rest,
           text = unlines ["[project]"%string; scalar "name" n] ++ rest
           /\ build_pep621_toml E poetry bs w
              = Ok (unlines ["[project]"%string;
                             scalar "name" "unknown-package"] ++ rest, w1))
   /\ (forall text w1,
         build_pep621_toml E poetry bs w = Ok (text, w1) ->
         exists rest,
           text
           = unlines ["[project]"%string; scalar "name" "unknown-package"]
             ++ rest))
  /\ (get "version" poetry = None ->
      build_pep621_toml E poetry bs w
      = build_pep621_toml E (("version"%string, VStr "0.1.0") :: poetry) bs w
      /\ (forall v text w1,
            build_pep621_toml E (("version"%string, VStr v) :: poetry) bs w
            = Ok (text, w1) ->
            exists name_line rest,
              text = unlines ["[project]"%string; name_line;
                              scalar "version" v] ++ rest
              /\ build_pep621_toml E poetry bs w
                 = Ok (unlines ["[project]"%string; name_line;
                                scalar "version" "0.1.0"] ++ rest, w1))
      /\ (forall text w1,
            build_pep621_toml E poetry bs w = Ok (text, w1) ->
            exists name_line rest,
              text
              = unlines ["[project]"%string; name_line;
                         scalar "version" "0.1.0"] ++ rest))
  /\ ((forall k, In k serializer_keys -> get k poetry = None) ->
      build_pep621_toml E poetry (VDict []) w
      = Ok (unlines (bare_lines ++ notes_lines w), w)).
Proof.
  split; [|split; [|apply build_bare]]; intros Hn.
  - pose proof (build_name_default E poetry bs w Hn) as Hd.
    split; [exact Hd|]. split.
    + intros n text w1 H.
      destruct (build_name_any _ _ _ _ _ _ _ H) as (rest & Ht & Hany).
      exists rest. split; [exact Ht|]. rewrite Hd. apply Hany.
    + intros text w1 H. rewrite Hd in H.
      destruct (build_name_any _ _ _ _ _ _ _ H) as (rest & Ht & _).
      now exists rest.
  - pose proof (build_version_default E poetry bs w Hn) as Hd.
    split; [exact Hd|]. split.
    + intros v text w1 H.
      destruct (build_version_any _ _ _ _ _ _ _ H) as (nm & rest & Ht & Hany).
      exists nm, rest. split; [exact Ht|]. rewrite Hd. apply Hany.
    + intros text w1 H. rewrite Hd in H.
      destruct (build_version_any _ _ _ _ _ _ _ H) as (nm & rest & Ht & _).
      now exists nm, rest.
Qed.

Lemma default_name_version_witness :
  build_pep621_toml example_env [] (VDict []) []
  = Ok ("[project]" ++ nl
        ++ "name = " ++ dq ++ "unknown-package" ++ dq ++ nl
        ++ "version = " ++ dq ++ "0.1.0" ++ dq ++ nl
        ++ nl
        ++ "[build-system]" ++ nl
        ++ "requires = [" ++ dq ++ "poetry-core>=1.9.0" ++ dq ++ "]" ++ nl
        ++ "build-backend = " ++ dq ++ "poetry.core.masonry.api" ++ dq ++ nl,
        []).
Proof.
  rewrite (proj1 (proj1 (default_name_version example_env [] (VDict []) [])
                    eq_refl)).
  rewrite (proj1 (proj1 (proj2 (default_name_version example_env
                                  [("name"%string, VStr "unknown-package")]
                                  (VDict []) []))
                    eq_refl)).
  reflexivity.
Defined.

(* ================================================================== *)
(** ** Further properties: escaping *)

Lemma toml_escape_cons (c : ascii) (r : string) :
  toml_escape (String c r)
  = if Ascii.eqb c (ascii_of_nat 92) then bsl ++ bsl ++ toml_escape r
    else if Ascii.eqb c (ascii_of_nat 34) then bsl ++ dq ++ toml_escape r
    else String c (toml_escape r).
Proof.
  unfold toml_escape. cbn [Py.replace_char].
  destruct (Ascii.eqb c (ascii_of_nat 92)) eqn:Hb.
  - reflexivity.
  - cbn [Py.replace_char].
    destruct (Ascii.eqb c (ascii_of_nat 34)); reflexivity.
Qed.

(** X1. What [toml_escape] writes reads back as the string it was given;
    so two different strings are never written the same. *)
Theorem toml_escape_round_trip :
  (forall s, toml_unescape (toml_escape s) = s)
  /\ (forall s t, toml_escape s = toml_escape t -> s = t).
Proof.
  assert (R : forall s, toml_unescape (toml_escape s) = s).
  { induction s as [|c r IH]; [reflexivity|].
    rewrite toml_escape_cons.
    destruct (Ascii.eqb c (ascii_of_nat 92)) eqn:Hb.
    - apply Ascii.eqb_eq in Hb. subst c.
      cbn. now rewrite IH.
    - destruct (Ascii.eqb c (ascii_of_nat 34)) eqn:Hq.
      + apply Ascii.eqb_eq in Hq. subst c. cbn. now rewrite IH.
      + cbn [toml_unescape]. now rewrite Hb, IH. }
  split; [exact R|].
  intros s t H. rewrite <- (R s), <- (R t). now rewrite H.
Qed.

Lemma toml_escape_round_trip_witness : bsl ++ "a" = bsl ++ "a".
Proof.
  apply (proj2 toml_escape_round_trip (bsl ++ "a") (bsl ++ "a")).
  reflexivity.
Defined.

(** X2. In what [toml_escape] writes every quote and every backslash is
    escaped, and a string with neither is written as it is. *)
Theorem toml_escape_well_escaped :
  (forall s, well_escaped (toml_escape s) = true)
  /\ (forall s, all_chars plain_char s = true -> toml_escape s = s).
Proof.
  split.
  - induction s as [|c r IH]; [reflexivity|].
    rewrite toml_escape_cons.
    destruct (Ascii.eqb c (ascii_of_nat 92)) eqn:Hb; [exact IH|].
    destruct (Ascii.eqb c (ascii_of_nat 34)) eqn:Hq; [exact IH|].
    cbn [well_escaped]. now rewrite Hb, Hq.
  - induction s as [|c r IH]; [reflexivity|].
    cbn [all_chars]. intros H. apply andb_true_iff in H as [Hc Hr].
    unfold plain_char in Hc. apply andb_true_iff in Hc as [Hb Hq].
    apply negb_true_iff in Hb, Hq.
    rewrite toml_escape_cons, Hb, Hq. now rewrite (IH Hr).
Qed.

Lemma toml_escape_well_escaped_witness :
  toml_escape "poetry-core>=1.9.0" = "poetry-core>=1.9.0".
Proof.
  apply (proj2 toml_escape_well_escaped "poetry-core>=1.9.0"). reflexivity.
Defined.

(* ================================================================== *)
(** ** Further properties: the translator *)

Lemma split_nonempty (s : string) : Py.split "." s <> [].
Proof.
  destruct s as [|c r]; [discriminate|].
  cbn [Py.split]. destruct (Ascii.eqb c "."); [discriminate|].
  destruct (Py.split "." r); discriminate.
Qed.

(** [int] skips a no-break space before the digits and refuses a unit
    separator there. *)
Lemma int_whitespace :
  Py.int (String (ascii_of_nat 160) "4") = Ok 4%Z
  /\ Py.int (String (ascii_of_nat 31) "4") = Raise ValueError
  /\ Py.strip (String (ascii_of_nat 31) "4") = "4".
Proof. repeat split; reflexivity. Qed.

Lemma int_raises (s : string) (e : exn) :
  Py.int s = Raise e -> e = ValueError.
Proof.
  unfold Py.int.
  destruct (match Py.rstrip_by Py.is_int_space
                     (Py.lstrip_by Py.is_int_space s) with
            | String "-"%char r => (true, r)
            | String "+"%char r => (false, r)
            | _ => (false, Py.rstrip_by Py.is_int_space
                             (Py.lstrip_by Py.is_int_space s))
            end) as [neg body].
  destruct (Py.int_digits body); [discriminate|].
  intros H. now injection H as <-.
Qed.

Lemma mapM_int_raises (l : list string) (e : exn) :
  mapM Py.int l = Raise e -> e = ValueError.
Proof.
  induction l as [|x r IH]; [discriminate|].
  cbn [mapM]. destruct (Py.int x) as [n|e'] eqn:Hx; cbn [bind].
  - destruct (mapM Py.int r) as [ns|e'']; cbn [bind]; [discriminate|].
    intros H. injection H as <-. now apply IH.
  - intros H. injection H as <-. now apply int_raises in Hx.
Qed.

Lemma caret_raises (v : string) (e : exn) :
  caret_to_range v = Raise e -> e = ValueError.
Proof.
  unfold caret_to_range.
  destruct (negb (Py.startswith "^" v)); [discriminate|].
  destruct (mapM Py.int _) as [parts|e'] eqn:Hp; cbn [bind].
  - destruct (firstn 3 (pad3 parts)) as [|a [|b [|c [|d t]]]];
      intros H; try discriminate H; now injection H as <-.
  - intros H. injection H as <-. now apply mapM_int_raises in Hp.
Qed.

Lemma tilde_raises (v : string) (e : exn) :
  tilde_to_range v = Raise e -> e = ValueError.
Proof.
  unfold tilde_to_range.
  destruct (negb (Py.startswith "~" v)); [discriminate|].
  pose proof (split_nonempty (Py.tail v)) as Hs.
  destruct (Py.split "." (Py.tail v)) as [|p0 [|p1 [|p2 t]]];
    [contradiction| | |];
    repeat match goal with
           | |- context [Py.int ?p] =>
               let H := fresh "Hi" in
               destruct (Py.int p) eqn:H; cbn [bind];
               [|let H' := fresh in
                 intros H'; injection H' as <-;
                 now apply int_raises in H]
           end;
    discriminate.
Qed.

(** X3. The translator raises nothing but [ValueError], and only for a
    constraint that, stripped, starts with a caret or a tilde. *)
Theorem normalize_raises_value_error (s : string) (e : exn) :
  normalize_version_constraint s = Raise e ->
  e = ValueError
  /\ (Py.startswith "^" (Py.strip s) = true
      \/ Py.startswith "~" (Py.strip s) = true).
Proof.
  unfold normalize_version_constraint.
  destruct (Py.startswith "^" (Py.strip s)).
  - intros H. split; [now apply caret_raises in H | now left].
  - destruct (Py.startswith "~" (Py.strip s)); [|discriminate].
    intros H. split; [now apply tilde_raises in H | now right].
Qed.

Lemma normalize_raises_value_error_witness :
  ValueError = ValueError
  /\ (Py.startswith "^" (Py.strip "^1.x") = true
      \/ Py.startswith "~" (Py.strip "^1.x") = true).
Proof.
  apply (normalize_raises_value_error "^1.x" ValueError). reflexivity.
Defined.

Lemma lstrip_first_ok (s : string) :
  not_space (first_char (Py.lstrip s)) = true.
Proof.
  induction s as [|c r IH]; [reflexivity|].
  cbn [Py.lstrip]. destruct (Py.is_space c) eqn:Hc; [exact IH|].
  cbn [first_char not_space]. now rewrite Hc.
Qed.

Lemma rstrip_last_ok (s : string) :
  not_space (last_char (Py.rstrip s)) = true.
Proof.
  induction s as [|c r IH]; [reflexivity|].
  cbn [Py.rstrip]. destruct (Py.rstrip r) as [|c' r'] eqn:Hr.
  - destruct (Py.is_space c) eqn:Hc; [reflexivity|].
    cbn [last_char not_space]. now rewrite Hc.
  - exact IH.
Qed.

Lemma rstrip_first_ok (s : string) :
  not_space (first_char s) = true ->
  not_space (first_char (Py.rstrip s)) = true.
Proof.
  destruct s as [|c r]; [reflexivity|].
  cbn [Py.rstrip first_char]. intros H.
  destruct (Py.rstrip r); [|exact H].
  destruct (Py.is_space c); [reflexivity | exact H].
Qed.

Lemma strip_is_trimmed (s : string) : trimmed (Py.strip s) = true.
Proof.
  unfold trimmed, Py.strip.
  rewrite rstrip_first_ok by apply lstrip_first_ok.
  now rewrite rstrip_last_ok.
Qed.

Lemma last_app_ok (a b : string) :
  b <> "" -> not_space (last_char b) = true ->
  not_space (last_char (a ++ b)) = true.
Proof. intros Hb H. now rewrite last_char_app. Qed.

Lemma str_int_last (z : Z) :
  Py.str_int z <> "" /\ not_space (last_char (Py.str_int z)) = true.
Proof.
  assert (D : forall n, is_digits (Py.str_nat n) = true).
  { intros n. apply string_of_uint_is_digits, to_uint_nonnil. }
  destruct z as [|p|p]; cbn [Py.str_int].
  - split; [discriminate | reflexivity].
  - split; [|now apply last_char_digits].
    intros H. specialize (D (Npos p)). now rewrite H in D.
  - split; [discriminate|].
    apply last_app_ok; [|now apply last_char_digits].
    intros H. specialize (D (Npos p)). now rewrite H in D.
Qed.

Ltac nonempty :=
  solve [ discriminate
        | apply (proj1 (str_int_last _))
        | apply app_nonempty; nonempty ].

Ltac to_last :=
  repeat first [ rewrite last_char_cons by nonempty
               | rewrite last_char_app by nonempty ];
  first [ reflexivity | apply (proj2 (str_int_last _)) ].

Lemma caret_range_text (v r : string) :
  Py.startswith "^" v = true -> caret_to_range v = Ok r -> range_text r.
Proof.
  unfold caret_to_range. intros ->. cbn [negb].
  destruct (mapM Py.int _) as [parts|e]; cbn [bind]; [|discriminate].
  destruct (firstn 3 (pad3 parts)) as [|a [|b [|c [|d t]]]];
    try discriminate.
  intros H. injection H as <-. split; [reflexivity|].
  destruct (0 <? a)%Z; [to_last|].
  destruct (0 <? b)%Z; to_last.
Qed.

Lemma tilde_range_text (v r : string) :
  Py.startswith "~" v = true -> tilde_to_range v = Ok r -> range_text r.
Proof.
  unfold tilde_to_range. intros ->. cbn [negb].
  destruct (Py.split "." (Py.tail v)) as [|p0 [|p1 [|p2 t]]];
    [discriminate| | |];
    repeat match goal with
           | |- context [Py.int ?p] =>
               destruct (Py.int p); cbn [bind]; [|discriminate]
           end;
    intros H; injection H as <-; (split; [reflexivity|]); to_last.
Qed.

Lemma normalize_range_text (r : string) :
  range_text r -> normalize_version_constraint r = Ok r.
Proof.
  intros [Hf Hl]. unfold normalize_version_constraint.
  rewrite strip_trimmed.
  - destruct r as [|c r']; [discriminate Hf|].
    cbn [first_char] in Hf. injection Hf as ->. reflexivity.
  - unfold trimmed. rewrite Hf, Hl. reflexivity.
Qed.

(** X4. Translating a translated constraint changes nothing: whatever
    the translator returns, it returns again when given that. *)
Theorem normalize_idempotent (s r : string) :
  normalize_version_constraint s = Ok r ->
  normalize_version_constraint r = Ok r.
Proof.
  unfold normalize_version_constraint at 1.
  destruct (Py.startswith "^" (Py.strip s)) eqn:Hc.
  { intros H. eapply normalize_range_text, caret_range_text; eassumption. }
  destruct (Py.startswith "~" (Py.strip s)) eqn:Ht.
  { intros H. eapply normalize_range_text, tilde_range_text; eassumption. }
  intros H. injection H as <-. unfold normalize_version_constraint.
  rewrite (strip_trimmed _ (strip_is_trimmed s)), Hc, Ht. reflexivity.
Qed.

Lemma normalize_idempotent_witness :
  normalize_version_constraint ">=2.31.0,<3.0.0" = Ok ">=2.31.0,<3.0.0".
Proof.
  apply (normalize_idempotent " ^2.31 " ">=2.31.0,<3.0.0"). reflexivity.
Defined.

Lemma trimmed_four (sigil : ascii) (a b c t : string) :
  Py.is_space sigil = false ->
  not_space (last_char (String "." t)) = true ->
  trimmed (String sigil (a ++ String "." (b ++ String "." (c ++ String "." t))))
  = true.
Proof.
  intros Hs Ht. unfold trimmed. cbn [first_char not_space].
  rewrite Hs. cbn [negb andb].
  rewrite last_char_cons by nonempty.
  rewrite last_char_app by nonempty.
  rewrite last_char_cons by nonempty.
  rewrite last_char_app by nonempty.
  rewrite last_char_cons by nonempty.
  rewrite last_char_app by nonempty.
  exact Ht.
Qed.

(** X5. A caret constraint reads every component it is given, and uses
    the first three: further components that are integers change nothing,
    and one that is no integer raises [ValueError]. *)
Theorem caret_further_components (a b c t : string) (x y z : N) :
  component a x -> component b y -> component c z ->
  not_space (last_char (String "." t)) = true ->
  (forall ns,
     mapM Py.int (Py.split "." t) = Ok ns ->
     normalize_version_constraint
       ("^" ++ a ++ "." ++ b ++ "." ++ c ++ "." ++ t)
     = normalize_version_constraint ("^" ++ a ++ "." ++ b ++ "." ++ c))
  /\ (forall e,
        mapM Py.int (Py.split "." t) = Raise e ->
        normalize_version_constraint
          ("^" ++ a ++ "." ++ b ++ "." ++ c ++ "." ++ t)
        = Raise ValueError).
Proof.
  intros Ha Hb Hc Ht.
  destruct (caret_components a b c x y z Ha Hb Hc) as [H3 _].
  split_components.
  change ("^" ++ a ++ "." ++ b ++ "." ++ c ++ "." ++ t)
    with (String "^" (a ++ String "." (b ++ String "." (c ++ String "." t)))).
  rewrite normalize_caret by (now apply trimmed_four).
  split.
  - intros ns Hns. rewrite H3.
    apply caret_parts
      with (parts := Z.of_N x :: Z.of_N y :: Z.of_N z :: ns); [|reflexivity].
    solve_split. read_components. now rewrite Hns.
  - intros e He. unfold caret_to_range.
    cbn [Py.startswith Py.tail]. rewrite Ascii.eqb_refl. cbn [andb negb].
    solve_split. read_components. rewrite He. cbn [bind].
    now rewrite (mapM_int_raises _ _ He).
Qed.

Lemma caret_further_components_witness :
  normalize_version_constraint ("^" ++ "1" ++ "." ++ "2" ++ "." ++ "3" ++ "." ++ "4.5")
  = normalize_version_constraint ("^" ++ "1" ++ "." ++ "2" ++ "." ++ "3").
Proof.
  refine (proj1 (caret_further_components "1" "2" "3" "4.5" 1 2 3
                   _ _ _ _) [4; 5]%Z _);
    try split; reflexivity.
Defined.

(** X6. A tilde constraint reads its first three components only: what
    follows a third component is not read, integer or not. *)
Theorem tilde_further_components (a b c t : string) (x y z : N) :
  component a x -> component b y -> component c z ->
  not_space (last_char (String "." t)) = true ->
  normalize_version_constraint ("~" ++ a ++ "." ++ b ++ "." ++ c ++ "." ++ t)
  = normalize_version_constraint ("~" ++ a ++ "." ++ b ++ "." ++ c).
Proof.
  intros Ha Hb Hc Ht.
  destruct (tilde_components a b c x y z Ha Hb Hc) as [_ [_ H3]].
  split_components. rewrite H3.
  change ("~" ++ a ++ "." ++ b ++ "." ++ c ++ "." ++ t)
    with (String "~" (a ++ String "." (b ++ String "." (c ++ String "." t)))).
  rewrite normalize_tilde by (now apply trimmed_four).
  unfold tilde_to_range.
  cbn [Py.startswith Py.tail]. rewrite Ascii.eqb_refl. cbn [andb negb].
  solve_split. read_components. unfold version3.
  now rewrite ?append_assoc.
Qed.

Lemma tilde_further_components_witness :
  normalize_version_constraint ("~" ++ "1" ++ "." ++ "2" ++ "." ++ "3" ++ "." ++ "x")
  = normalize_version_constraint ("~" ++ "1" ++ "." ++ "2" ++ "." ++ "3").
Proof.
  refine (tilde_further_components "1" "2" "3" "x" 1 2 3 _ _ _ _);
    try split; reflexivity.
Defined.

(* ================================================================== *)
(** ** Further properties: the specifier builder *)

Lemma dep_table_new_warnings (E : Env) (name : string) (val : value)
    (s : string) (ws : list string) :
  dep_table_to_pep508 E name val [] = Ok (s, ws) ->
  ws = []
  \/ exists d p path,
       val = VDict d
       /\ get "path" d = Some (VStr p)
       /\ truthy_opt (get "develop" d) = true
       /\ path_expanduser E p = Ok path
       /\ ws = [editable_warning name path].
Proof.
  unfold dep_table_to_pep508.
  repeat case_scrutinee; intros H; try discriminate H;
    injection H as <- <-;
    first [ left; reflexivity
          | right; eexists _, _, _; repeat split; eassumption ].
Qed.

(** X7. A dependency adds no warning, or the one warning of an editable
    path entry; the warnings it is given are kept in front, and the
    specifier does not depend on them. *)
Theorem dep_table_warnings_editable_only (E : Env) (name : string)
    (val : value) (w w' : list string) (s : string) :
  dep_table_to_pep508 E name val w = Ok (s, w') ->
  exists ws,
    w' = (w ++ ws)%list
    /\ (forall w2, dep_table_to_pep508 E name val w2 = Ok (s, (w2 ++ ws)%list))
    /\ (ws = []
        \/ exists d p path,
             val = VDict d
             /\ get "path" d = Some (VStr p)
             /\ truthy_opt (get "develop" d) = true
             /\ path_expanduser E p = Ok path
             /\ ws = [editable_warning name path]).
Proof.
  rewrite dep_table_warnings.
  destruct (dep_table_to_pep508 E name val []) as [[s0 ws]|e] eqn:H0;
    [|discriminate].
  intros H. injection H as <- <-. exists ws. split; [reflexivity|]. split.
  - intros w2. now rewrite dep_table_warnings, H0.
  - now apply dep_table_new_warnings in H0.
Qed.

Lemma dep_table_warnings_editable_only_witness :
  exists ws,
    ["kept"%string] = (["kept"%string] ++ ws)%list
    /\ (forall w2,
          dep_table_to_pep508 example_env "requests" (VStr "^2.31.0") w2
          = Ok ("requests >=2.31.0,<3.0.0"%string, (w2 ++ ws)%list))
    /\ (ws = []
        \/ exists d p path,
             VStr "^2.31.0" = VDict d
             /\ get "path" d = Some (VStr p)
             /\ truthy_opt (get "develop" d) = true
             /\ path_expanduser example_env p = Ok path
             /\ ws = [editable_warning "requests" path]).
Proof.
  apply (dep_table_warnings_editable_only example_env "requests"
           (VStr "^2.31.0") ["kept"%string] ["kept"%string]
           "requests >=2.31.0,<3.0.0").
  reflexivity.
Defined.

Lemma join_extras_strings (es : list string) :
  join_extras (VList (map VStr es)) = Ok (Py.join "," es).
Proof.
  unfold join_extras. cbn [iterate bind].
  assert (H : mapM (fun v => match v with
                             | VStr s => Ok s
                             | _ => Raise TypeError
                             end) (map VStr es) = Ok es).
  { induction es as [|x r IH]; [reflexivity|].
    cbn [map mapM bind]. now rewrite IH. }
  now rewrite H.
Qed.

(** X8. A table with neither [path] nor [git] is written as
    [name[extras] constraint ; markers]: the extras joined by commas in
    the order given (no brackets for an empty list), the version
    translated, one blank between the pieces. *)
Theorem registry_table_specifier (E : Env) (name : string) (d : dict)
    (es : list string) (v c m : string) (w : list string) :
  get "path" d = None ->
  get "git" d = None ->
  get "extras" d = Some (VList (map VStr es)) ->
  get "version" d = Some (VStr v) -> v <> "" ->
  normalize_version_constraint v = Ok c ->
  get "markers" d = Some (VStr m) -> m <> "" ->
  dep_table_to_pep508 E name (VDict d) w
  = Ok (name
          ++ match es with
             | [] => ""
             | _ => "[" ++ Py.join "," es ++ "]"
             end
          ++ " " ++ c ++ " ; " ++ m, w).
Proof.
  intros Hp Hg He Hv Hv0 Hc Hm Hm0.
  unfold dep_table_to_pep508. rewrite Hp, Hg, He, Hv, Hm.
  apply String.eqb_neq in Hv0, Hm0.
  cbn [truthy]. rewrite Hv0, Hm0, Hc. cbn [negb bind].
  destruct es as [|e0 es'].
  - cbn [or_default truthy map bind List.app Py.join].
    now rewrite ?append_assoc.
  - change (or_default (Some (VList (map VStr (e0 :: es')))) (VList []))
      with (VList (map VStr (e0 :: es'))).
    cbn [truthy map]. change (VStr e0 :: map VStr es')
      with (map VStr (e0 :: es')).
    rewrite join_extras_strings. cbn [bind List.app Py.join].
    now rewrite ?append_assoc.
Qed.

Lemma registry_table_specifier_witness :
  dep_table_to_pep508 example_env "uvicorn"
    (VDict [("version", VStr "^0.23"); ("extras", VList (map VStr ["standard"; "http"]));
            ("markers", VStr "python_version >= '3.9'")]) []
  = Ok ("uvicorn" ++ ("[" ++ Py.join "," ["standard"; "http"] ++ "]")
          ++ " " ++ ">=0.23.0,<0.24.0" ++ " ; " ++ "python_version >= '3.9'",
        []).
Proof.
  apply (registry_table_specifier example_env "uvicorn" _
           ["standard"; "http"] "^0.23" ">=0.23.0,<0.24.0"
           "python_version >= '3.9'" []);
    try reflexivity; discriminate.
Defined.

Lemma deps_loop_skip (E : Env) (l1 l2 : dict) (name : string) (v : value) :
  Py.lower name = "python" ->
  deps_loop E (l1 ++ (name, v) :: l2)%list [] [] = deps_loop E (l1 ++ l2)%list [] [].
Proof.
  intros Hn. induction l1 as [|[k x] r IH].
  - cbn [List.app]. rewrite deps_loop_cons, Hn. reflexivity.
  - cbn [List.app]. rewrite !deps_loop_cons, IH. reflexivity.
Qed.

(** X9. An entry whose key is [python], in any case, is left out
    whatever its value is: the table with it gives what the table
    without it gives, also where its value is no constraint at all. *)
Theorem python_entry_skipped (E : Env) (l1 l2 : dict) (name : string)
    (v : value) (w : list string) :
  Py.lower name = "python" ->
  poetry_deps_to_pep621 E (VDict (l1 ++ (name, v) :: l2)%list) w
  = poetry_deps_to_pep621 E (VDict (l1 ++ l2)%list) w.
Proof.
  intros Hn. rewrite !poetry_deps_unfold.
  now rewrite deps_loop_skip.
Qed.

Lemma python_entry_skipped_witness :
  poetry_deps_to_pep621 example_env
    (VDict ([("requests", VStr "^2.31.0")]
            ++ ("Python", VStr "^not.a.version") :: [("attrs", VStr "*")])%list)
    []
  = poetry_deps_to_pep621 example_env
      (VDict ([("requests", VStr "^2.31.0")] ++ [("attrs", VStr "*")])%list)
      [].
Proof.
  apply (python_entry_skipped example_env [("requests", VStr "^2.31.0")]
           [("attrs", VStr "*")] "Python" (VStr "^not.a.version") []).
  reflexivity.
Defined.

Lemma deps_loop_ok_iff (E : Env) (deps : dict) :
  (exists r, deps_loop E deps [] [] = Ok r)
  <-> Forall (fun kv => exists r,
                dep_table_to_pep508 E (fst kv) (snd kv) [] = Ok r)
             (packages deps).
Proof.
  induction deps as [|[name val] r IH].
  - split; [constructor | now exists ([], [])].
  - rewrite deps_loop_cons. unfold packages, is_python in *.
    cbn [filter fst snd].
    destruct (Py.lower name =? "python"); cbn [negb]; [exact IH|].
    split.
    + intros [res H].
      destruct (dep_table_to_pep508 E name val []) as [[s w1]|e] eqn:Hd;
        [|discriminate H].
      destruct (deps_loop E r [] []) as [[o ws]|e] eqn:Hr; [|discriminate H].
      constructor; [now exists (s, w1)|].
      apply IH. now exists (o, ws).
    + intros H. inversion H as [|? ? [[s w1] Hd] Hrest]; subst.
      cbn [fst snd] in Hd. rewrite Hd.
      apply IH in Hrest. destruct Hrest as [[o ws] ->].
      now eexists.
Qed.

(** X10. The dependencies of a table are rendered or an exception is
    raised: there is a result exactly when every entry other than
    [python] can be rendered on its own. *)
Theorem deps_rendered_iff_each (E : Env) (deps : dict) (w : list string) :
  (exists r, poetry_deps_to_pep621 E (VDict deps) w = Ok r)
  <-> Forall (fun kv => exists r,
                dep_table_to_pep508 E (fst kv) (snd kv) [] = Ok r)
             (packages deps).
Proof.
  rewrite <- deps_loop_ok_iff, poetry_deps_unfold.
  destruct (deps_loop E deps [] []) as [[o ws]|e].
  - split; intros _; now eexists.
  - split; intros [r H]; discriminate H.
Qed.

Lemma deps_loop_counts (E : Env) (deps : dict) :
  forall o ws,
    deps_loop E deps [] [] = Ok (o, ws) ->
    List.length o = List.length (packages deps)
    /\ List.length ws <= List.length (packages deps).
Proof.
  induction deps as [|[name val] r IH]; intros o ws.
  - cbn. intros H. injection H as <- <-. split; [reflexivity | apply le_n].
  - rewrite deps_loop_cons. unfold packages, is_python in *.
    cbn [filter fst].
    destruct (Py.lower name =? "python"); cbn [negb]; [apply IH|].
    destruct (dep_table_to_pep508 E name val []) as [[s w1]|e] eqn:Hd;
      [|discriminate].
    destruct (deps_loop E r [] []) as [[o1 ws1]|e]; [|discriminate].
    intros H. injection H as <- <-.
    destruct (IH _ _ eq_refl) as [Ho Hw].
    cbn [List.length]. rewrite length_app. split; [now rewrite Ho|].
    apply dep_table_new_warnings in Hd.
    destruct Hd as [->|(d & p & path & _ & _ & _ & _ & ->)];
      cbn [List.length]; lia.
Qed.

(** X11. There is one specifier for each entry other than [python],
    none lost and none added; the warnings given are kept in front, and at
    most one is added for each such entry. *)
Theorem deps_one_specifier_each (E : Env) (deps : dict)
    (w out w' : list string) :
  poetry_deps_to_pep621 E (VDict deps) w = Ok (out, w') ->
  List.length out = List.length (packages deps)
  /\ exists ws,
       w' = (w ++ ws)%list
       /\ List.length ws <= List.length (packages deps).
Proof.
  rewrite poetry_deps_unfold.
  destruct (deps_loop E deps [] []) as [[o ws]|e] eqn:Hl; [|discriminate].
  intros H. injection H as <- <-.
  destruct (deps_loop_counts _ _ _ _ Hl) as [Ho Hw]. split.
  - rewrite <- Ho. symmetry. apply Permutation_length, sorted_by_perm.
  - now exists ws.
Qed.

Lemma deps_one_specifier_each_witness :
  List.length ["localtool @ file:///work/../localtool"%string;
               "requests >=2.31.0,<3.0.0"%string]
  = List.length
      (packages
         [("python", VStr "^3.11"); ("requests", VStr "^2.31.0");
          ("localtool",
           VDict [("path", VStr "../localtool"); ("develop", VBool true)])])
  /\ exists ws,
       [editable_warning "localtool" "../localtool"] = ([] ++ ws)%list
       /\ List.length ws
          <= List.length
               (packages
                  [("python", VStr "^3.11"); ("requests", VStr "^2.31.0");
                   ("localtool",
                    VDict [("path", VStr "../localtool");
                           ("develop", VBool true)])]).
Proof.
  apply (deps_one_specifier_each example_env
           [("python", VStr "^3.11"); ("requests", VStr "^2.31.0");
            ("localtool",
             VDict [("path", VStr "../localtool"); ("develop", VBool true)])]
           []).
  reflexivity.
Defined.

(** X12. A dependencies value that is false (an empty table, an empty
    string, zero) gives no specifier and leaves the warnings alone; one
    that is true and no table raises [AttributeError]. *)
Theorem deps_value_not_a_table (E : Env) (v : value) (w : list string) :
  (truthy v = false -> poetry_deps_to_pep621 E v w = Ok ([], w))
  /\ (truthy v = true -> (forall d, v <> VDict d) ->
      poetry_deps_to_pep621 E v w = Raise AttributeError).
Proof.
  unfold poetry_deps_to_pep621. split.
  - intros ->. reflexivity.
  - intros -> Hd. destruct v; try reflexivity.
    now elim (Hd d).
Qed.

Lemma deps_value_not_a_table_witness :
  poetry_deps_to_pep621 example_env (VStr "") ["kept"%string]
  = Ok ([], ["kept"%string])
  /\ poetry_deps_to_pep621 example_env (VList [VStr "requests"]) []
     = Raise AttributeError.
Proof.
  split.
  - apply (proj1 (deps_value_not_a_table example_env (VStr "") _)).
    reflexivity.
  - apply (proj2 (deps_value_not_a_table example_env
                    (VList [VStr "requests"]) [])); [reflexivity|].
    discriminate.
Defined.

Lemma deps_rendered_iff_each_witness :
  exists r,
    poetry_deps_to_pep621 example_env
      (VDict [("python", VStr "^3.11"); ("requests", VStr "^2.31.0")]) []
    = Ok r.
Proof.
  apply (proj2 (deps_rendered_iff_each example_env
                  [("python", VStr "^3.11"); ("requests", VStr "^2.31.0")]
                  [])).
  repeat constructor. eexists. reflexivity.
Defined.

(* ================================================================== *)
(** ** Further properties: the serializer *)

Lemma get_perm (k : string) (d d' : dict) :
  Permutation d d' -> NoDup (map fst d) -> get k d = get k d'.
Proof.
  induction 1 as [|[k1 v1] l l' Hp IH|[k1 v1] [k2 v2] l|l l' l'' H1 IH1 H2 IH2];
    intros Hn.
  - reflexivity.
  - cbn [get]. inversion Hn; subst. now rewrite IH.
  - cbn [get]. cbn [map fst] in Hn.
    destruct (k1 =? k) eqn:E1, (k2 =? k) eqn:E2; try reflexivity.
    apply String.eqb_eq in E1, E2. subst k1 k2.
    inversion Hn as [|? ? Hin _]; subst. elim Hin. now left.
  - rewrite IH1 by exact Hn. apply IH2.
    eapply Permutation_NoDup; [|exact Hn]. now apply Permutation_map.
Qed.

Lemma build_project_ext (E : Env) (p p' : dict) (w : list string) :
  (forall k, get k p = get k p') ->
  build_project E p w = build_project E p' w.
Proof.
  intros H. unfold build_project, get_default, url_labels.
  cbn [collect_urls]. unfold get_truthy. now rewrite !H.
Qed.

(** X13. The output does not depend on the order of the keys of the
    metadata table. *)
Theorem table_key_order (E : Env) (p p' : dict) (bs : value)
    (w : list string) :
  NoDup (map fst p) -> Permutation p p' ->
  build_pep621_toml E p bs w = build_pep621_toml E p' bs w.
Proof.
  intros Hn Hp. unfold build_pep621_toml.
  rewrite (build_project_ext E p p' w); [reflexivity|].
  intros k. now apply get_perm.
Qed.

Lemma table_key_order_witness :
  build_pep621_toml example_env
    [("name", VStr "demo"); ("version", VStr "1.0.0");
     ("homepage", VStr "https://h")] (VDict []) []
  = build_pep621_toml example_env
      [("homepage", VStr "https://h"); ("version", VStr "1.0.0");
       ("name", VStr "demo")] (VDict []) [].
Proof.
  apply table_key_order.
  - repeat constructor; cbn; intuition discriminate.
  - apply perm_trans
      with [("version", VStr "1.0.0"); ("name", VStr "demo");
            ("homepage", VStr "https://h")].
    + apply perm_swap.
    + apply perm_trans
        with [("version", VStr "1.0.0"); ("homepage", VStr "https://h");
              ("name", VStr "demo")].
      * apply perm_skip, perm_swap.
      * apply perm_swap.
Defined.






Lemma build_project_scalars (E : Env) (poetry : dict) (w w1 : list string)
    (proj : project) :
  build_project E poetry w = Ok (proj, w1) ->
  proj_name proj = get_default "name" poetry (VStr "unknown-package")
  /\ proj_version proj = get_default "version" poetry (VStr "0.1.0").
Proof.
  intros H. destruct (build_project_defaults _ _ _ _ _ H) as [Hn Hv].
  split.
  - apply (f_equal proj_name) in Hn. now symmetry.
  - apply (f_equal proj_version) in Hv. now symmetry.
Qed.

Lemma toml_escape_value_not_string (v : value) :
  (forall s, v <> VStr s) -> exists e, toml_escape_value v = Raise e.
Proof.
  intros H. destruct v; try (eexists; reflexivity). now elim (H s).
Qed.

(** X15. A [name] or a [version] that is not a string is never written:
    the serialization raises an exception, whatever else the table holds. *)
Theorem scalar_must_be_string (E : Env) (poetry : dict) (bs : value)
    (w : list string) (v : value) :
  get "name" poetry = Some v \/ get "version" poetry = Some v ->
  (forall s, v <> VStr s) ->
  exists e, build_pep621_toml E poetry bs w = Raise e.
Proof.
  intros Hk Hv. unfold build_pep621_toml.
  destruct (build_project E poetry w) as [[proj wa]|e] eqn:Hp;
    [|now exists e].
  cbn [bind].
  destruct (build_project_scalars _ _ _ _ _ Hp) as [Hn Hver].
  destruct (toml_escape_value_not_string v Hv) as [e He].
  unfold render, output_lines. cbn [scalar_line].
  unfold get_default in Hn, Hver.
  destruct Hk as [Hk|Hk]; rewrite Hk in *.
  - rewrite Hn, He. cbn [bind]. now exists e.
  - rewrite Hver, He.
    destruct (toml_escape_value (proj_name proj)) as [n|e'];
      cbn [bind]; eexists; reflexivity.
Qed.

Lemma scalar_must_be_string_witness :
  exists e,
    build_pep621_toml example_env [("name", VStr "demo"); ("version", VInt 2)]
      (VDict []) []
    = Raise e.
Proof.
  apply (scalar_must_be_string example_env
           [("name", VStr "demo"); ("version", VInt 2)] (VDict []) []
           (VInt 2)).
  - right. reflexivity.
  - discriminate.
Defined.

(** X16. A document without a [tool] table, or whose [tool] table has
    no [poetry] table or an empty one, raises [ValueError]; a document that
    is converted has a non-empty [tool.poetry] table, which is serialized
    with the document's build-system table and no warning to begin with. *)
Theorem document_needs_poetry_table (E : Env) (data : dict) :
  (get "tool" data = None -> migrate_document E data = Raise ValueError)
  /\ (forall tool,
        get "tool" data = Some (VDict tool) ->
        truthy_opt (get "poetry" tool) = false ->
        migrate_document E data = Raise ValueError)
  /\ (forall r,
        migrate_document E data = Ok r ->
        exists tool kv p,
          get "tool" data = Some (VDict tool)
          /\ get "poetry" tool = Some (VDict (kv :: p))
          /\ build_pep621_toml E (kv :: p)
               (get_default "build-system" data (VDict [])) []
             = Ok r).
Proof.
  unfold migrate_document, get_default. split; [|split].
  - intros ->. reflexivity.
  - intros tool -> Hp. unfold truthy_opt in Hp.
    destruct (get "poetry" tool) as [v|]; [|reflexivity].
    now rewrite Hp.
  - intros r. destruct (get "tool" data) as [[]|]; try discriminate.
    destruct (get "poetry" d) as [v|] eqn:Hpo; [|discriminate].
    destruct (truthy v) eqn:Hv; cbn [negb]; [|discriminate].
    destruct v; try discriminate.
    destruct d0 as [|kv p]; [discriminate Hv|].
    intros H. exists d, kv, p. repeat split; assumption.
Qed.

Lemma document_needs_poetry_table_witness :
  migrate_document example_env [("project", VDict [("name", VStr "demo")])]
  = Raise ValueError
  /\ migrate_document example_env [("tool", VDict [("poetry", VDict [])])]
     = Raise ValueError.
Proof.
  split.
  - apply (proj1 (document_needs_poetry_table example_env _)). reflexivity.
  - apply (proj1 (proj2 (document_needs_poetry_table example_env _))
             [("poetry", VDict [])]); reflexivity.
Defined.

Lemma parse_author_string (E : Env) (s : string) :
  exists a, parse_author E (VStr s) = Ok a.
Proof.
  unfold parse_author. destruct (author_match E s) as [[name email]|];
    eexists; reflexivity.
Qed.

Lemma parse_author_strings (E : Env) (l : list string) :
  exists authors,
    mapM (parse_author E) (map VStr l) = Ok authors
    /\ Forall2 (fun s a => parse_author E (VStr s) = Ok a) l authors.
Proof.
  induction l as [|s r (authors & Hm & Hf)].
  - exists []. split; [reflexivity | constructor].
  - destruct (parse_author_string E s) as [a Ha].
    exists (a :: authors). cbn [map mapM]. rewrite Ha, Hm.
    split; [reflexivity | now constructor].
Qed.

(** X17. Author lines that are strings are never refused: there is one
    record for each, in the order given, and a line the pattern does not
    match becomes a name as it stands, without an email.  An entry that is
    no string raises [TypeError]. *)
Theorem authors_from_strings (E : Env) :
  (forall l,
     exists authors,
       parse_authors E (VList (map VStr l)) = Ok authors
       /\ Forall2 (fun s a => parse_author E (VStr s) = Ok a) l authors)
  /\ (forall s,
        author_match E s = None ->
        parse_author E (VStr s)
        = Ok {| author_name := s; author_email := None |})
  /\ (forall l1 v l2,
        (forall s, v <> VStr s) ->
        parse_authors E (VList (map VStr l1 ++ v :: l2)%list)
        = Raise TypeError).
Proof.
  split; [|split].
  - intros l. destruct (parse_author_strings E l) as (authors & Hm & Hf).
    exists authors. split; [|exact Hf].
    unfold parse_authors. destruct l as [|s r]; [|exact Hm].
    cbn in Hm |- *. exact Hm.
  - intros s H. unfold parse_author. now rewrite H.
  - intros l1 v l2 Hv. unfold parse_authors.
    assert (Ht : truthy (VList (map VStr l1 ++ v :: l2)%list) = true).
    { destruct l1; reflexivity. }
    rewrite Ht. cbn [iterate bind].
    induction l1 as [|s r IH].
    + cbn [map List.app mapM].
      assert (Hr : parse_author E v = Raise TypeError).
      { destruct v; try reflexivity. now elim (Hv s). }
      now rewrite Hr.
    + cbn [map List.app mapM].
      destruct (parse_author_string E s) as [a ->]. cbn [bind].
      rewrite IH; [reflexivity | destruct r; reflexivity].
Qed.

Lemma authors_from_strings_witness :
  parse_author example_env (VStr "Jane Doe")
  = Ok {| author_name := "Jane Doe"; author_email := None |}
  /\ parse_authors example_env
       (VList (map VStr ["Jane Doe"] ++ VInt 7 :: [])%list)
     = Raise TypeError.
Proof.
  split.
  - apply (proj1 (proj2 (authors_from_strings example_env))). reflexivity.
  - apply (proj2 (proj2 (authors_from_strings example_env))). discriminate.
Defined.

Lemma output_lines_urls_dependencies (proj : project) (bs : value)
    (w lines arr : list string) (d : dict) :
  proj_urls proj = Some d ->
  proj_dependencies proj = Some arr ->
  output_lines proj bs w = Ok lines ->
  exists pre url_lines post,
    table_lines d = Ok url_lines
    /\ lines
       = (pre ++ ("[project.urls]"%string :: url_lines)
              ++ [""%string; dependencies_line arr]
              ++ post)%list.
Proof.
  unfold output_lines. intros -> ->. cbn [urls_lines dependencies_lines].
  repeat case_scrutinee; intros H; try discriminate H.
  injection H as <-.
  match goal with
  | |- exists pre url_lines post,
         _ /\ (?h :: ?a ++ ?b ++ ?c ++ ?d ++ ?e ++ ?f
                  ++ ?u :: ?ul ++ ?x :: ?y :: ?r)%list = _ =>
      exists (h :: a ++ b ++ c ++ d ++ e ++ f)%list, ul, r
  end.
  split; [reflexivity|]. cbn [List.app]. rewrite <- !app_assoc.
  reflexivity.
Qed.

(** X18. Where the table has a URL and a dependency, the [dependencies]
    array is written after the lines of the [[project.urls]] table, with
    only an empty line between them and no table header of its own. *)
Theorem dependencies_follow_urls (E : Env) (poetry : dict) (bs : value)
    (w w1 arr : list string) (text : string) (proj : project) (d : dict) :
  build_pep621_toml E poetry bs w = Ok (text, w1) ->
  build_project E poetry w = Ok (proj, w1) ->
  proj_urls proj = Some d ->
  proj_dependencies proj = Some arr ->
  exists pre url_lines post,
    table_lines d = Ok url_lines
    /\ text
       = pre
         ++ unlines ("[project.urls]"%string :: url_lines)
         ++ unlines [""%string; dependencies_line arr]
         ++ post.
Proof.
  unfold build_pep621_toml. intros H Hp Hu Hd. rewrite Hp in H.
  cbn [bind] in H.
  destruct (render proj _ w1) as [t|e] eqn:Hr; [|discriminate H].
  cbn [bind] in H. injection H as <-.
  destruct (render_unlines _ _ _ _ Hr) as (lines & Hl & ->).
  destruct (output_lines_urls_dependencies _ _ _ _ _ _ Hu Hd Hl)
    as (pre & ul & post & Ht & ->).
  exists (unlines pre), ul, (unlines post). split; [exact Ht|].
  now rewrite !unlines_app.
Qed.

Lemma dependencies_follow_urls_witness :
  exists pre url_lines post,
    table_lines [("Homepage", VStr "https://example.org")] = Ok url_lines
    /\ fst urls_output
       = pre
         ++ unlines ("[project.urls]"%string :: url_lines)
         ++ unlines [""%string; dependencies_line ["requests >=2.31.0,<3.0.0"]]
         ++ post.
Proof.
  apply (dependencies_follow_urls example_env urls_poetry (VDict []) []
           (snd urls_output) ["requests >=2.31.0,<3.0.0"] (fst urls_output)
           {| proj_name := VStr "demo";
              proj_version := VStr "0.1.0";
              proj_description := None;
              proj_readme := None;
              proj_authors := None;
              proj_license := None;
              proj_urls := Some [("Homepage", VStr "https://example.org")];
              proj_dependencies := Some ["requests >=2.31.0,<3.0.0"];
              proj_optional_dependencies := None;
              proj_scripts := None |});
    vm_compute; reflexivity.
Defined.

Lemma group_not_a_table (E : Env) (p : dict) (v bs : value)
    (w : list string) :
  (forall g, v <> VDict g) ->
  build_pep621_toml E (("group"%string, v) :: p) bs w
  = build_pep621_toml E (("group"%string, VDict []) :: p) bs w.
Proof.
  intros Hv. unfold build_pep621_toml, build_project. skip_key.
  unfold get_default at 4 8. cbn [get String.eqb Ascii.eqb Bool.eqb].
  destruct v; try reflexivity. now elim (Hv d).
Qed.

(** X19. A [group] value that is no table is passed over as if there
    were no groups, while a [dev] group that is no table stops the
    serialization with an exception. *)
Theorem group_and_dev_shapes (E : Env) (poetry : dict) (bs : value)
    (w : list string) :
  (forall p v,
     (forall g, v <> VDict g) ->
     build_pep621_toml E (("group"%string, v) :: p) bs w
     = build_pep621_toml E (("group"%string, VDict []) :: p) bs w)
  /\ (forall g v,
        get "group" poetry = Some (VDict g) ->
        get "dev" g = Some v ->
        (forall d, v <> VDict d) ->
        exists e, build_pep621_toml E poetry bs w = Raise e).
Proof.
  split; [intros p v; apply group_not_a_table|].
  intros g v Hg Hd Hv. unfold build_pep621_toml, build_project.
  destruct (parse_authors _ _) as [authors|e]; [|now exists e].
  cbn [bind].
  destruct (poetry_deps_to_pep621 _ (get_default "dependencies" _ _) _)
    as [[dep_list wa]|e]; [|now exists e].
  cbn [bind]. unfold get_default at 1 2. rewrite Hg, Hd.
  destruct v; try (eexists; reflexivity). now elim (Hv d).
Qed.

Lemma group_and_dev_shapes_witness :
  exists e,
    build_pep621_toml example_env
      [("name", VStr "demo"); ("group", VDict [("dev", VStr "pytest")])]
      (VDict []) []
    = Raise e.
Proof.
  apply (proj2 (group_and_dev_shapes example_env
                  [("name", VStr "demo");
                   ("group", VDict [("dev", VStr "pytest")])]
                  (VDict []) [])
           [("dev", VStr "pytest")] (VStr "pytest"));
    try reflexivity.
  discriminate.
Defined.

Lemma table_lines_strings (entries : list (string * string)) :
  table_lines (map (fun kv => (fst kv, VStr (snd kv))) entries)
  = Ok (map script_line entries).
Proof.
  unfold table_lines.
  induction entries as [|[k v] r IH]; [reflexivity|].
  cbn [map mapM fst snd toml_escape_value bind]. now rewrite IH.
Qed.

Lemma output_lines_scripts (proj : project) (bs : value)
    (w lines : list string) :
  output_lines proj bs w = Ok lines ->
  exists pre l_scripts post,
    scripts_lines (proj_scripts proj) = Ok l_scripts
    /\ lines = (pre ++ l_scripts ++ post)%list.
Proof.
  unfold output_lines. repeat case_scrutinee; intros H; try discriminate H.
  injection H as <-.
  match goal with
  | |- exists pre l_scripts post,
         _ /\ (?h :: ?a ++ ?b ++ ?c ++ ?d ++ ?e ++ ?f ++ ?g ++ ?i ++ ?o ++ ?s
                  ++ ?r)%list = _ =>
      exists (h :: a ++ b ++ c ++ d ++ e ++ f ++ g ++ i ++ o)%list, s, r
  end.
  split; [reflexivity|]. cbn [List.app]. now rewrite <- !app_assoc.
Qed.

Lemma build_project_scripts (E : Env) (poetry : dict) (w w1 : list string)
    (proj : project) (v : value) :
  build_project E poetry w = Ok (proj, w1) ->
  get "scripts" poetry = Some v -> truthy v = true ->
  proj_scripts proj = Some v.
Proof.
  unfold build_project.
  destruct (parse_authors _ _) as [authors|e]; [|discriminate].
  cbn [bind].
  destruct (poetry_deps_to_pep621 _ (get_default "dependencies" _ _) _)
    as [[dep_list wa]|e]; [|discriminate].
  cbn [bind].
  destruct (match get_default "dev" _ _ with
            | VDict dev_group => Ok _
            | _ => Raise _
            end) as [src|e]; [|discriminate].
  cbn [bind].
  destruct (poetry_deps_to_pep621 _ src wa) as [[dev_deps wb]|e];
    [|discriminate].
  cbn [bind]. intros H Hs Ht. injection H as <- <-.
  cbn [proj_scripts]. unfold or_default. rewrite Hs, Ht. cbv iota.
  now rewrite Ht.
Qed.

(** X20. A scripts table of strings is kept: the output has the table
    [[project.scripts]] with one line for each script, in the order of
    the source, the entry points escaped. *)
Theorem scripts_preserved (E : Env) (poetry : dict) (bs : value)
    (w w1 : list string) (text : string) (kv : string * string)
    (entries : list (string * string)) :
  get "scripts" poetry = Some (scripts_table (kv :: entries)) ->
  build_pep621_toml E poetry bs w = Ok (text, w1) ->
  exists pre post,
    text
    = pre
      ++ unlines (""%string :: "[project.scripts]"%string
                  :: map script_line (kv :: entries))
      ++ post.
Proof.
  intros Hs H. unfold build_pep621_toml in H.
  destruct (build_project E poetry w) as [[proj wa]|e] eqn:Hp;
    [|discriminate H].
  cbn [bind] in H.
  destruct (render proj _ wa) as [t|e] eqn:Hr; [|discriminate H].
  cbn [bind] in H. injection H as <- <-.
  pose proof (build_project_scripts _ _ _ _ _ _ Hp Hs eq_refl) as Hps.
  destruct (render_unlines _ _ _ _ Hr) as (lines & Hl & ->).
  destruct (output_lines_scripts _ _ _ _ Hl) as (pre & ls & post & Hls & ->).
  rewrite Hps in Hls. unfold scripts_table, scripts_lines in Hls.
  rewrite table_lines_strings in Hls. cbn [bind] in Hls.
  injection Hls as <-.
  exists (unlines pre), (unlines post). now rewrite !unlines_app.
Qed.

Lemma scripts_preserved_witness :
  exists pre post,
    fst scripts_output
    = pre
      ++ unlines (""%string :: "[project.scripts]"%string
                  :: map script_line
                       [("serve", "demo.cli:serve"); ("check", "demo.cli:check")])
      ++ post.
Proof.
  apply (scripts_preserved example_env scripts_poetry (VDict []) []
           (snd scripts_output) (fst scripts_output)
           ("serve", "demo.cli:serve") [("check", "demo.cli:check")]);
    vm_compute; reflexivity.
Defined.

(* ================================================================== *)
(** ** Further properties: files and the command line *)

(** X21. A dry run writes no file, and returns what the real run
    returns: whenever the real run succeeds the dry run gives the same
    text and warnings, and the other way round where the backup is
    another file than the source and the backup and the target can be
    written. *)
Theorem dry_run_writes_nothing (E : Env) (H : Host) (fs : store)
    (path : string) (out : option string) :
  fst (migrate_pyproject E H fs path true out) = fs
  /\ (forall r,
        snd (migrate_pyproject E H fs path false out) = Ok r ->
        snd (migrate_pyproject E H fs path true out) = Ok r)
  /\ (forall r,
        snd (migrate_pyproject E H fs path true out) = Ok r ->
        file_of H (backup_path H path) <> file_of H path ->
        writable H (backup_path H path) = true ->
        writable H (target_of path out) = true ->
        snd (migrate_pyproject E H fs path false out) = Ok r).
Proof.
  split; [|split].
  - unfold migrate_pyproject. destruct (fs path); [|reflexivity].
    destruct (bind _ _) as [[t ws]|e]; reflexivity.
  - intros r. unfold migrate_pyproject. destruct (fs path); [|discriminate].
    destruct (bind _ _) as [[t ws]|e]; [|discriminate].
    destruct (_ || _); [discriminate|].
    destruct (negb _); [discriminate|]. exact (fun h => h).
  - intros r Hr Hb Hwb Hwt. revert Hr. unfold migrate_pyproject, target_of in *.
    destruct (fs path); [|discriminate].
    destruct (bind _ _) as [[t ws]|e]; [|discriminate].
    apply String.eqb_neq in Hb. rewrite Hb, Hwb. cbn [negb orb].
    rewrite Hwt. exact (fun h => h).
Qed.

Lemma dry_run_writes_nothing_witness :
  snd (migrate_pyproject example_env example_host example_store
         "pyproject.toml" true None)
  = snd (migrate_pyproject example_env example_host example_store
           "pyproject.toml" false None).
Proof.
  destruct (migrate_pyproject example_env example_host example_store
              "pyproject.toml" false None) as [fs' [r|e]] eqn:Hm.
  - apply (proj1 (proj2 (dry_run_writes_nothing example_env example_host
                           example_store "pyproject.toml" None)) r).
    now rewrite Hm.
  - vm_compute in Hm. discriminate Hm.
Defined.

(** X22. What makes a dry run fail (a file that cannot be read, a
    document that cannot be parsed or converted) makes the real run fail
    with the same exception before any file is written. *)
Theorem failed_conversion_writes_nothing (E : Env) (H : Host) (fs : store)
    (path : string) (out : option string) (dry_run : bool) (e : exn) :
  snd (migrate_pyproject E H fs path true out) = Raise e ->
  migrate_pyproject E H fs path dry_run out = (fs, Raise e).
Proof.
  unfold migrate_pyproject. destruct (fs path).
  - destruct (bind _ _) as [[t ws]|e']; [discriminate|].
    cbn [snd]. intros Hr. now injection Hr as ->.
  - cbn [snd]. intros Hr. now injection Hr as <-.
Qed.

Lemma failed_conversion_writes_nothing_witness :
  migrate_pyproject example_env example_host example_store "missing.toml"
    false None
  = (example_store, Raise EnvironmentError).
Proof.
  apply (failed_conversion_writes_nothing example_env example_host
           example_store "missing.toml" None false EnvironmentError).
  reflexivity.
Defined.



(** X24. A real run prints nothing on the standard output and writes to
    the target the text that the dry run prints, with the same text on the
    standard error; a dry run leaves the files alone; the standard error
    is empty exactly when there is no warning. *)
Theorem main_streams (E : Env) (H : Host) (fs : store) (path : string)
    (out : option string) :
  (forall so se,
     snd (main E H fs path false out) = Ok (so, se) ->
     so = ""
     /\ exists text,
          snd (main E H fs path true out) = Ok (text, se)
          /\ fst (main E H fs path false out) (target_of path out)
             = Some text)
  /\ fst (main E H fs path true out) = fs
  /\ (forall dry_run text ws,
        snd (migrate_pyproject E H fs path dry_run out) = Ok (text, ws) ->
        exists so se,
          snd (main E H fs path dry_run out) = Ok (so, se)
          /\ (se = "" <-> ws = [])).
Proof.
  split; [|split].
  - intros so se. unfold main, migrate_pyproject.
    destruct (fs path); [|discriminate].
    destruct (bind _ _) as [[t ws]|e]; [|discriminate].
    destruct (_ || _); [discriminate|].
    fold (target_of path out).
    destruct (negb _); [discriminate|].
    cbn [fst snd]. intros Hr. injection Hr as <- <-.
    split; [reflexivity|]. exists t. split; [reflexivity|].
    unfold write. now rewrite String.eqb_refl.
  - unfold main, migrate_pyproject. destruct (fs path); [|reflexivity].
    destruct (bind _ _) as [[t ws]|e]; reflexivity.
  - intros dry_run text ws. unfold main.
    destruct (migrate_pyproject E H fs path dry_run out) as [fs' [[t w]|e]];
      [|discriminate].
    cbn [snd]. intros Hr. injection Hr as -> ->.
    eexists _, _. split; [reflexivity|].
    destruct ws; split; try reflexivity; discriminate.
Qed.

Lemma main_streams_witness :
  exists so se,
    snd (main example_env example_host example_store "pyproject.toml" true
           None)
    = Ok (so, se)
    /\ (se = "" <-> @nil string = []).
Proof.
  refine (proj2 (proj2 (main_streams example_env example_host example_store
                          "pyproject.toml" None)) true _ [] _).
  vm_compute. reflexivity.
Defined.
